(** * Spot price dashboard: the resampling routine and the MTU table

    A shallow embedding of [spot_price_app.py].  The program keeps one
    global pandas dataframe [df] and answers two queries on it,
    [plot_price] (the step chart) and [update_table] (the MTU table).

    pandas objects are mutable and shared by reference, so dataframes live
    in a heap and the two queries are written in a small state-and-error
    monad.  The pandas primitives the program calls are modelled as pure
    functions on dataframe values; the heap operations wrap them.

    Modelling choices:
    - a dataframe is column-wise, as in pandas: row labels and named
      columns of dynamically typed cells; a row operation (boolean
      indexing, sorting, reindexing) acts alike on every column;
    - an instant is an integer number of nanoseconds since the epoch;
      a calendar day is the UTC date of the instant;
    - a price is a rational number (prices are only ever copied);
    - a pandas call that raises returns [Raise] with the exception;
    - the input file is taken as parsed: a list of records, one per line,
      whose [DateTime] field holds the parsed instant. *)

From Stdlib Require Import ZArith QArith List String Ascii Lia Permutation Sorted.
From stdpp Require Import gmap strings.
Import ListNotations.
Close Scope Q_scope.
Local Open Scope string_scope.
Local Open Scope list_scope.
Local Open Scope Z_scope.

(** ** Cells, columns and dataframes *)

(** A cell of a dataframe.  [NaN] is pandas' missing value (NaN for floats
    and objects, NaT for timestamps).  [Time t] is a [datetime64[ns]]
    instant: nanoseconds since the epoch, UTC. *)
Inductive cell : Type :=
| NaN
| Int (n : Z)
| Num (q : Q)
| Str (s : string)
| Time (t : Z).

Definition Series : Type := list cell.

(** A dataframe: the row labels and the named columns, in display order. *)
Record DataFrame : Type := {
  index : Series;
  columns : list (string * Series)
}.

Inductive exn : Type :=
| KeyError (key : string)
| ValueError (msg : string)
| AttributeError (msg : string)
| TypeError (msg : string).

Inductive result (A : Type) : Type :=
| Ok (a : A)
| Raise (e : exn).
Arguments Ok {A} a.
Arguments Raise {A} e.

Definition rbind {A B} (r : result A) (k : A -> result B) : result B :=
  match r with
  | Ok a => k a
  | Raise e => Raise e
  end.

(** ** Time arithmetic *)

Definition minute : Z := 60000000000.
Definition hour : Z := 60 * minute.
Definition day_ns : Z := 24 * hour.

(** [pd.Timedelta(minutes = m)] *)
Definition Timedelta (minutes : Z) : Z := minutes * minute.

(** [ts + td]; NaT absorbs. *)
Definition add_timedelta (ts : cell) (td : Z) : cell :=
  match ts with
  | Time t => Time (t + td)
  | _ => NaN
  end.

(** Midnight of the calendar day (UTC) an instant falls on. *)
Definition day_start (t : Z) : Z := (t / day_ns) * day_ns.

Definition digit (n : Z) : string :=
  String (ascii_of_nat (48 + Z.to_nat (n mod 10))) EmptyString.

Definition pad2 (n : Z) : string := digit (n / 10) +:+ digit n.
Definition pad4 (n : Z) : string := pad2 (n / 100) +:+ pad2 n.

(** [strftime('%H:%M')] of an instant. *)
Definition strftime_HM (t : Z) : string :=
  let m := (t mod day_ns) / minute in
  pad2 (m / 60) +:+ ":" +:+ pad2 (m mod 60).

(** [str(ts.date())]: the proleptic Gregorian date of an instant, as
    [YYYY-MM-DD]. *)
Definition date_str (t : Z) : string :=
  let z := t / day_ns + 719468 in
  let era := z / 146097 in
  let doe := z - era * 146097 in
  let yoe := (doe - doe / 1460 + doe / 36524 - doe / 146096) / 365 in
  let doy := doe - (365 * yoe + yoe / 4 - yoe / 100) in
  let mp := (5 * doy + 2) / 153 in
  let d := doy - (153 * mp + 2) / 5 + 1 in
  let m := if mp <? 10 then mp + 3 else mp - 9 in
  let y := yoe + era * 400 + (if m <=? 2 then 1 else 0) in
  pad4 y +:+ "-" +:+ pad2 m +:+ "-" +:+ pad2 d.

(** [pd.Timestamp.min.value] and [pd.Timestamp.max.value]: the instants
    of [datetime64[ns]], from 1677-09-21 to 2262-04-11. *)
Definition Timestamp_min : Z := - 2 ^ 63 + 1.
Definition Timestamp_max : Z := 2 ^ 63 - 1.

(** The instant [hh:mm] on the [n]-th day after 2023-01-01. *)
Definition jan2023 (n hh mm : Z) : Z :=
  (19358 + n) * day_ns + hh * hour + mm * minute.

(** ** pandas primitives on dataframe values *)

Fixpoint lookup_col (name : string) (cols : list (string * Series)) : option Series :=
  match cols with
  | [] => None
  | (n, c) :: rest => if String.eqb n name then Some c else lookup_col name rest
  end.

(** [d[name]] *)
Definition getitem (d : DataFrame) (name : string) : result Series :=
  match lookup_col name (columns d) with
  | Some c => Ok c
  | None => Raise (KeyError name)
  end.

(** [s == v] for a string [v]: elementwise, a boolean mask. *)
Definition eq_str (s : Series) (v : string) : list bool :=
  map (fun c => match c with Str x => String.eqb x v | _ => false end) s.

(** [s.isin(vs)] *)
Definition isin (s : Series) (vs : list string) : list bool :=
  map (fun c => match c with Str x => existsb (String.eqb x) vs | _ => false end) s.

(** [m1 & m2] *)
Fixpoint mask_and (m1 m2 : list bool) : list bool :=
  match m1, m2 with
  | a :: m1', b :: m2' => (a && b) :: mask_and m1' m2'
  | _, _ => []
  end.

Fixpoint mask_filter {A : Type} (mask : list bool) (l : list A) : list A :=
  match mask, l with
  | m :: mask', x :: l' =>
      if m then x :: mask_filter mask' l' else mask_filter mask' l'
  | _, _ => []
  end.

(** A row operation acts alike on the labels and on every column. *)
Definition map_rows (f : Series -> Series) (d : DataFrame) : DataFrame :=
  {| index := f (index d);
     columns := map (fun nc => (fst nc, f (snd nc))) (columns d) |}.

(** [d[mask]]: the rows where the mask holds, labels kept. *)
Definition getitem_mask (d : DataFrame) (mask : list bool) : DataFrame :=
  map_rows (mask_filter mask) d.

(** The order [sort_values] puts cells in: ascending, missing values last.
    A column holds cells of one kind, so the last case is never reached
    on a column of the program. *)
Definition cell_leb (a b : cell) : bool :=
  match a, b with
  | _, NaN => true
  | NaN, _ => false
  | Int x, Int y => x <=? y
  | Num x, Num y => Qle_bool x y
  | Str x, Str y => String.leb x y
  | Time x, Time y => x <=? y
  | _, _ => true
  end.

Fixpoint insert_by {A : Type} (k : cell) (x : A) (l : list (cell * A)) : list (cell * A) :=
  match l with
  | [] => [(k, x)]
  | (k', y) :: l' =>
      if cell_leb k k' then (k, x) :: l else (k', y) :: insert_by k x l'
  end.

Fixpoint sort_pairs {A : Type} (l : list (cell * A)) : list (cell * A) :=
  match l with
  | [] => []
  | (k, x) :: l' => insert_by k x (sort_pairs l')
  end.

(** The values of [col] in ascending order of [keys].  This sort keeps
    rows with equal keys in their order; [sort_values] runs quicksort by
    default, which may place them in any order.  The two agree whenever
    the keys are distinct, and each statement below that fixes an order of
    rows either assumes distinct instants or speaks of some ordering by
    time of the selected rows. *)
Definition sort_by {A : Type} (keys : Series) (col : list A) : list A :=
  map snd (sort_pairs (combine keys col)).

(** [d.sort_values(by)] *)
Definition sort_values (d : DataFrame) (by_ : string) : result DataFrame :=
  rbind (getitem d by_) (fun keys => Ok (map_rows (sort_by keys) d)).

Definition remove_col (name : string) (cols : list (string * Series)) : list (string * Series) :=
  List.filter (fun nc => negb (String.eqb (fst nc) name)) cols.

(** [d.set_index(name)] *)
Definition set_index (d : DataFrame) (name : string) : result DataFrame :=
  rbind (getitem d name) (fun keys =>
    Ok {| index := keys; columns := remove_col name (columns d) |}).

(** [ix.min()] and [ix.max()] of a datetime index; NaT when it is empty. *)
Definition index_min (ix : Series) : cell :=
  fold_right (fun c acc =>
    match c, acc with
    | Time t, Time u => Time (Z.min t u)
    | Time t, _ => Time t
    | _, _ => acc
    end) NaN ix.

Definition index_max (ix : Series) : cell :=
  fold_right (fun c acc =>
    match c, acc with
    | Time t, Time u => Time (Z.max t u)
    | Time t, _ => Time t
    | _, _ => acc
    end) NaN ix.

(** [pd.date_range(start, end, freq)]: [start], [start + freq], ... up to
    the last one not after [end]. *)
Definition date_range (start stop : cell) (freq : Z) : result Series :=
  match start, stop with
  | Time a, Time b =>
      Ok (map (fun k => Time (a + Z.of_nat k * freq))
              (seq 0 (Z.to_nat ((b - a) / freq + 1))))
  | _, _ => Raise (ValueError "Neither `start` nor `end` can be NaT")
  end.

(** Labels are compared as values; two missing labels are the same label. *)
Definition cell_eqb (a b : cell) : bool :=
  match a, b with
  | NaN, NaN => true
  | Int x, Int y => x =? y
  | Num x, Num y => Qeq_bool x y
  | Str x, Str y => String.eqb x y
  | Time x, Time y => x =? y
  | _, _ => false
  end.

Fixpoint is_unique (ix : Series) : bool :=
  match ix with
  | [] => true
  | c :: rest => negb (existsb (cell_eqb c) rest) && is_unique rest
  end.

Fixpoint is_monotonic_increasing (ix : Series) : bool :=
  match ix with
  | a :: (b :: _) as rest => cell_leb a b && is_monotonic_increasing rest
  | _ => true
  end.

(** The forward-fill lookup in a sorted index: the value at the last label
    not after [t], if there is one. *)
Fixpoint pad {A : Type} (kvs : list (cell * A)) (t : cell) (found : option A) : option A :=
  match kvs with
  | [] => found
  | (k, v) :: rest => if cell_leb k t then pad rest t (Some v) else found
  end.

Definition ffill (ix : Series) (col : Series) (t : cell) : cell :=
  match pad (combine ix col) t None with
  | Some v => v
  | None => NaN
  end.

(** [d.reindex(target, method = 'ffill')] *)
Definition reindex (d : DataFrame) (target : Series) : result DataFrame :=
  if negb (is_unique (index d)) then
    Raise (ValueError "cannot reindex on an axis with duplicate labels")
  else if negb (is_monotonic_increasing (index d)) then
    Raise (ValueError "index must be monotonic increasing or decreasing")
  else
    Ok {| index := target;
          columns := map (fun nc => (fst nc, map (ffill (index d) (snd nc)) target))
                         (columns d) |}.

(** The part of a plotly figure the program sets. *)
Record Figure : Type := {
  fig_x : Series;
  fig_y : Series;
  line_shape : string;
  title : string;
  xaxis_title : string;
  yaxis_title : string;
  xaxis_tickformat : string;
  hovermode : string;
  hovertemplate : string
}.

(** [px.line(d, y = y, line_shape = shape)]: the index against column [y]. *)
Definition px_line (d : DataFrame) (y shape : string) : result Figure :=
  match lookup_col y (columns d) with
  | Some c =>
      Ok {| fig_x := index d; fig_y := c; line_shape := shape; title := "";
            xaxis_title := "index"; yaxis_title := y; xaxis_tickformat := "";
            hovermode := "closest"; hovertemplate := "" |}
  | None => Raise (ValueError "Value of 'y' is not the name of a column in 'data_frame'")
  end.

Definition update_layout (fig : Figure) (t xt yt tf hm : string) : Figure :=
  {| fig_x := fig_x fig; fig_y := fig_y fig; line_shape := line_shape fig;
     title := t; xaxis_title := xt; yaxis_title := yt; xaxis_tickformat := tf;
     hovermode := hm; hovertemplate := hovertemplate fig |}.

Definition update_traces (fig : Figure) (ht : string) : Figure :=
  {| fig_x := fig_x fig; fig_y := fig_y fig; line_shape := line_shape fig;
     title := title fig; xaxis_title := xaxis_title fig;
     yaxis_title := yaxis_title fig; xaxis_tickformat := xaxis_tickformat fig;
     hovermode := hovermode fig; hovertemplate := ht |}.

(** [d.reset_index()]: the labels become a column, rows are renumbered. *)
Definition has_col (name : string) (d : DataFrame) : bool :=
  existsb (fun nc => String.eqb (fst nc) name) (columns d).

Definition reset_index (d : DataFrame) : result DataFrame :=
  let name := if has_col "index" d then "level_0" else "index" in
  if has_col name d then
    Raise (ValueError "cannot insert level_0, already exists")
  else
    Ok {| index := map (fun k => Int (Z.of_nat k)) (seq 0 (length (index d)));
          columns := (name, index d) :: columns d |}.

(** [d.rename(columns = {old : new})] *)
Definition rename (d : DataFrame) (old new : string) : DataFrame :=
  {| index := index d;
     columns := map (fun nc => (if String.eqb (fst nc) old then new else fst nc, snd nc))
                    (columns d) |}.

Fixpoint mapM {A B : Type} (f : A -> result B) (l : list A) : result (list B) :=
  match l with
  | [] => Ok []
  | x :: l' => rbind (f x) (fun y => rbind (mapM f l') (fun ys => Ok (y :: ys)))
  end.

(** [s.dt.<f>] on a datetime column; any other column has no [.dt]. *)
Definition dt_map (f : Z -> string) (s : Series) : result Series :=
  mapM (fun c =>
    match c with
    | Time t => Ok (Str (f t))
    | NaN => Ok NaN
    | _ => Raise (AttributeError "Can only use .dt accessor with datetimelike values")
    end) s.

(** [s.dt.strftime('%H:%M')] *)
Definition dt_strftime_HM (s : Series) : result Series := dt_map strftime_HM s.

(** [s.dt.date.astype(str)] *)
Definition dt_date_str (s : Series) : result Series := dt_map date_str s.

(** [s.shift(-1)]: every value moves up one row, the last row is missing. *)
Definition shift_up (s : Series) : Series :=
  match s with
  | [] => []
  | _ :: rest => rest ++ [NaN]
  end.

Fixpoint set_col (name : string) (c : Series) (cols : list (string * Series)) : list (string * Series) :=
  match cols with
  | [] => [(name, c)]
  | (n, c') :: rest =>
      if String.eqb n name then (n, c) :: rest else (n, c') :: set_col name c rest
  end.

(** [d[name] = c]: replaces the column, or appends it as the last one. *)
Definition setitem (d : DataFrame) (name : string) (c : Series) : DataFrame :=
  {| index := index d; columns := set_col name c (columns d) |}.

(** [d.fillna(v)] for a string [v]: every missing cell of every column. *)
Definition fillna (d : DataFrame) (v : string) : DataFrame :=
  {| index := index d;
     columns := map (fun nc =>
                  (fst nc, map (fun c => match c with NaN => Str v | _ => c end) (snd nc)))
                  (columns d) |}.

(** [s + v] for a string [v] *)
Definition add_str (s : Series) (v : string) : result Series :=
  mapM (fun c =>
    match c with
    | Str x => Ok (Str (x +:+ v))
    | NaN => Ok NaN
    | _ => Raise (TypeError "unsupported operand type(s) for +")
    end) s.

(** [s1 + s2] on two columns of one frame *)
Fixpoint add_series (s1 s2 : Series) : result Series :=
  match s1, s2 with
  | a :: s1', b :: s2' =>
      rbind (match a, b with
             | Str x, Str y => Ok (Str (x +:+ y))
             | NaN, _ | _, NaN => Ok NaN
             | _, _ => Raise (TypeError "unsupported operand type(s) for +")
             end)
            (fun c => rbind (add_series s1' s2') (fun cs => Ok (c :: cs)))
  | _, _ => Ok []
  end.

(** [repr] of a list of column names: [['a', 'b']]. *)
Definition repr_names (names : list string) : string :=
  "[" +:+ String.concat ", " (map (fun n => "'" +:+ n +:+ "'") names) +:+ "]".

(** The message of the [KeyError] of [d[[n1, n2, ...]]]: the names that
    are no column of [d], or all of them when none is. *)
Definition not_in_index (d : DataFrame) (names : list string) : string :=
  let missing :=
    List.filter (fun n => match lookup_col n (columns d) with
                          | None => true
                          | Some _ => false
                          end) names in
  if (length missing =? length names)%nat
  then "None of [Index(" +:+ repr_names names +:+ ", dtype='object')] are in the [columns]"
  else repr_names missing +:+ " not in index".

(** [d[[n1, n2, ...]]] *)
Definition getitem_cols (d : DataFrame) (names : list string) : result DataFrame :=
  match mapM (fun n => rbind (getitem d n) (fun c => Ok (n, c))) names with
  | Ok cols => Ok {| index := index d; columns := cols |}
  | Raise _ => Raise (KeyError (not_in_index d names))
  end.

(** An HTML table: the header and the rows of the body. *)
Record Table : Type := {
  thead : list string;
  tbody : list (list cell)
}.

Fixpoint rows_of (n : nat) (cols : list Series) : list (list cell) :=
  match n with
  | O => []
  | S n' => map (fun c => hd NaN c) cols :: rows_of n' (map (@tl cell) cols)
  end.

(** [dbc.Table.from_dataframe(d)] *)
Definition Table_from_dataframe (d : DataFrame) : Table :=
  {| thead := map fst (columns d);
     tbody := rows_of (length (index d)) (map snd (columns d)) |}.

Notation "'let?' x := r 'in' k" := (rbind r (fun x => k))
  (at level 10, x name, r at level 100, k at level 200).

(** ** The heap of dataframe objects

    A dataframe variable of the program holds a reference.  Indexing,
    [copy], [reindex], [reset_index] and [rename] build a new object;
    the [inplace = True] methods and [d[name] = ...] change the object
    they are called on. *)

Definition loc : Type := nat.

Definition M (A : Type) : Type :=
  gmap nat DataFrame -> gmap nat DataFrame * result A.

Definition ret {A : Type} (a : A) : M A := fun h => (h, Ok a).

Definition bind {A B : Type} (m : M A) (k : A -> M B) : M B :=
  fun h =>
    match m h with
    | (h', Ok a) => k a h'
    | (h', Raise e) => (h', Raise e)
    end.

#[global] Instance M_ret : MRet M := @ret.
#[global] Instance M_bind : MBind M := fun A B k m => bind m k.

Definition lift {A : Type} (r : result A) : M A := fun h => (h, r).

(** Reading through a reference.  A reference of the program always points
    to an object; the error case only makes [load] total. *)
Definition load (l : loc) : M DataFrame :=
  fun h =>
    match h !! l with
    | Some d => (h, Ok d)
    | None => (h, Raise (KeyError "no such object"))
    end.

Definition alloc (d : DataFrame) : M loc :=
  fun h => let l := fresh (dom h) in (<[l := d]> h, Ok l).

Definition store (l : loc) (d : DataFrame) : M unit :=
  fun h => (<[l := d]> h, Ok tt).

(** [obj[name]]: the column, as a value. *)
Definition column (obj : loc) (name : string) : M Series :=
  d ← load obj; lift (getitem d name).

(** [obj[mask]] *)
Definition select_rows (obj : loc) (mask : list bool) : M loc :=
  d ← load obj; alloc (getitem_mask d mask).

(** [obj.copy()] *)
Definition copy (obj : loc) : M loc :=
  d ← load obj; alloc d.

(** [obj.sort_values(by, inplace = True)] *)
Definition sort_values_inplace (obj : loc) (by_ : string) : M unit :=
  d ← load obj; d' ← lift (sort_values d by_); store obj d'.

(** [obj.set_index(name, inplace = True)] *)
Definition set_index_inplace (obj : loc) (name : string) : M unit :=
  d ← load obj; d' ← lift (set_index d name); store obj d'.

(** [obj.index] *)
Definition get_index (obj : loc) : M Series :=
  d ← load obj; mret (index d).

(** [obj.reindex(target, method = 'ffill')] *)
Definition reindex_ffill (obj : loc) (target : Series) : M loc :=
  d ← load obj; d' ← lift (reindex d target); alloc d'.

(** [obj.reset_index()] *)
Definition reset_index_new (obj : loc) : M loc :=
  d ← load obj; d' ← lift (reset_index d); alloc d'.

(** [obj.rename(columns = {old : new})] *)
Definition rename_new (obj : loc) (old new : string) : M loc :=
  d ← load obj; alloc (rename d old new).

(** [obj[name] = c] *)
Definition assign (obj : loc) (name : string) (c : Series) : M unit :=
  d ← load obj; store obj (setitem d name c).

(** [obj.fillna(v, inplace = True)] *)
Definition fillna_inplace (obj : loc) (v : string) : M unit :=
  d ← load obj; store obj (fillna d v).

(** [obj[[n1, n2, ...]]] *)
Definition select_cols (obj : loc) (names : list string) : M loc :=
  d ← load obj; d' ← lift (getitem_cols d names); alloc d'.

(** ** The program *)

(** One line of the input file.  [DateTime] is the instant
    [pd.to_datetime] reads from the [DateTime] field. *)
Record PriceObservation : Type := {
  DateTime : Z;
  ResolutionCode : string;
  AreaCode : string;
  AreaTypeCode : string;
  AreaName : string;
  MapCode : string;
  Price : Q;
  Currency : string;
  UpdateTime : string
}.

Definition row_labels (n : nat) : Series :=
  map (fun k => Int (Z.of_nat k)) (seq 0 n).

(** [pd.read_csv] followed by [pd.to_datetime] on the [DateTime] column,
    for a file whose lines parse: [file] holds the parsed lines.  A line
    that does not parse, or an instant that [datetime64[ns]] cannot hold
    (see [Timestamp_min] and [Timestamp_max]), makes line 115 raise; such
    files have no counterpart here. *)
Definition read_csv (file : list PriceObservation) : DataFrame :=
  {| index := row_labels (length file);
     columns :=
       [ ("DateTime", map (fun r => Time (DateTime r)) file);
         ("ResolutionCode", map (fun r => Str (ResolutionCode r)) file);
         ("AreaCode", map (fun r => Str (AreaCode r)) file);
         ("AreaTypeCode", map (fun r => Str (AreaTypeCode r)) file);
         ("AreaName", map (fun r => Str (AreaName r)) file);
         ("MapCode", map (fun r => Str (MapCode r)) file);
         ("Price", map (fun r => Num (Price r)) file);
         ("Currency", map (fun r => Str (Currency r)) file);
         ("UpdateTime", map (fun r => Str (UpdateTime r)) file) ] |}.

Definition norwegian_zones : list string := ["NO1"; "NO2"; "NO3"; "NO4"; "NO5"].

(** The global [df], lines 62 and 115 to 121: the Norwegian bidding zones,
    with the [Day] column. *)
Definition load_df (file : list PriceObservation) : result DataFrame :=
  let df := read_csv file in
  let? map_code := getitem df "MapCode" in
  let df := getitem_mask df (isin map_code norwegian_zones) in
  let? date_time := getitem df "DateTime" in
  let? day := dt_date_str date_time in
  Ok (setitem df "Day" day).

(** [plot_price(day, area, data = df)], lines 133 to 163. *)
Definition plot_price (day area : string) (data : loc) : M Figure :=
  map_code ← column data "MapCode";
  day_col ← column data "Day";
  selected ← select_rows data (mask_and (eq_str map_code area) (eq_str day_col day));
  subset ← copy selected;
  sort_values_inplace subset "DateTime";;
  set_index_inplace subset "DateTime";;
  ix_min ← get_index subset;
  ix_max ← get_index subset;
  t_index ← lift (date_range (index_min ix_min)
                              (add_timedelta (index_max ix_max) (Timedelta 59))
                              (15 * minute));
  subset ← reindex_ffill subset t_index;
  d ← load subset;
  fig ← lift (px_line d "Price" "hv");
  let fig := update_layout fig "Day-ahead prices" "Time [Hours]"
               "Price per MTU [EUR / MWh]" "%H:%M" "x unified" in
  mret (update_traces fig "PT60M: %{y}").

(** [update_table(day, area, data = df)], lines 257 to 279. *)
Definition update_table (day area : string) (data : loc) : M Table :=
  map_code ← column data "MapCode";
  day_col ← column data "Day";
  selected ← select_rows data (mask_and (eq_str map_code area) (eq_str day_col day));
  subset ← copy selected;
  sort_values_inplace subset "DateTime";;
  renumbered ← reset_index_new subset;
  subset ← rename_new renumbered "Price" "Day-ahead price";
  date_time ← column subset "DateTime";
  times ← lift (dt_strftime_HM date_time);
  assign subset "DateTime" times;;
  date_time ← column subset "DateTime";
  assign subset "temp" (shift_up date_time);;
  fillna_inplace subset "00:00";;
  date_time ← column subset "DateTime";
  left ← lift (add_str date_time " - ");
  temp ← column subset "temp";
  mtu ← lift (add_series left temp);
  assign subset "MTU" mtu;;
  selected ← select_cols subset ["MTU"; "Day-ahead price"];
  subset ← copy selected;
  d ← load subset;
  mret (Table_from_dataframe d).

(** ** What the two queries compute

    The figure and the table as functions of the dataframe behind [data];
    [plot_price_run] and [update_table_run] below show that the programs
    return exactly these. *)

Definition select (day area : string) (d : DataFrame) : result DataFrame :=
  let? map_code := getitem d "MapCode" in
  let? day_col := getitem d "Day" in
  Ok (getitem_mask d (mask_and (eq_str map_code area) (eq_str day_col day))).

Definition plot_price_value (day area : string) (d : DataFrame) : result Figure :=
  let? subset := select day area d in
  let? subset := sort_values subset "DateTime" in
  let? subset := set_index subset "DateTime" in
  let? t_index := date_range (index_min (index subset))
                    (add_timedelta (index_max (index subset)) (Timedelta 59))
                    (15 * minute) in
  let? subset := reindex subset t_index in
  let? fig := px_line subset "Price" "hv" in
  Ok (update_traces
        (update_layout fig "Day-ahead prices" "Time [Hours]"
           "Price per MTU [EUR / MWh]" "%H:%M" "x unified")
        "PT60M: %{y}").

(** The grid [plot_price] builds on the way, line 143. *)
Definition target_grid (day area : string) (d : DataFrame) : result Series :=
  let? subset := select day area d in
  let? subset := sort_values subset "DateTime" in
  let? subset := set_index subset "DateTime" in
  date_range (index_min (index subset))
    (add_timedelta (index_max (index subset)) (Timedelta 59))
    (15 * minute).

Definition update_table_value (day area : string) (d : DataFrame) : result Table :=
  let? subset := select day area d in
  let? subset := sort_values subset "DateTime" in
  let? subset := reset_index subset in
  let subset := rename subset "Price" "Day-ahead price" in
  let? date_time := getitem subset "DateTime" in
  let? times := dt_strftime_HM date_time in
  let subset := setitem subset "DateTime" times in
  let? date_time := getitem subset "DateTime" in
  let subset := setitem subset "temp" (shift_up date_time) in
  let subset := fillna subset "00:00" in
  let? date_time := getitem subset "DateTime" in
  let? left := add_str date_time " - " in
  let? temp := getitem subset "temp" in
  let? mtu := add_series left temp in
  let subset := setitem subset "MTU" mtu in
  let? subset := getitem_cols subset ["MTU"; "Day-ahead price"] in
  Ok (Table_from_dataframe subset).

(** Every object of [h0] is still there, unchanged, in [h]. *)
Definition unchanged (h0 h : gmap nat DataFrame) : Prop :=
  forall l v, h0 !! l = Some v -> h !! l = Some v.

(** A weakest-precondition reading of [M]: [wp m h post] says that the
    run of [m] from [h] ends in a heap and an outcome that satisfy [post]. *)
Definition wp {A : Type} (m : M A) (h : gmap nat DataFrame)
    (post : gmap nat DataFrame -> result A -> Prop) : Prop :=
  post (m h).1 (m h).2.

(** An object the program made itself: not one of [h0], and holding [d]. *)
Definition owned (h0 h : gmap nat DataFrame) (l : loc) (d : DataFrame) : Prop :=
  unchanged h0 h /\ h0 !! l = None /\ h !! l = Some d.

(** ** The dataframes of the program, row by row *)

(** The dataframe whose rows are [rs]: [lab] gives a row's label and the
    schema its cell in each column. *)
Definition frame_of {R : Type} (lab : R -> cell) (sch : list (string * (R -> cell)))
    (rs : list R) : DataFrame :=
  {| index := map lab rs;
     columns := map (fun nf => (fst nf, map (snd nf) rs)) sch |}.

(** The columns of the input file, and those of [df]. *)
Definition csv_schema : list (string * (PriceObservation -> cell)) :=
  [ ("DateTime", fun r => Time (DateTime r));
    ("ResolutionCode", fun r => Str (ResolutionCode r));
    ("AreaCode", fun r => Str (AreaCode r));
    ("AreaTypeCode", fun r => Str (AreaTypeCode r));
    ("AreaName", fun r => Str (AreaName r));
    ("MapCode", fun r => Str (MapCode r));
    ("Price", fun r => Num (Price r));
    ("Currency", fun r => Str (Currency r));
    ("UpdateTime", fun r => Str (UpdateTime r)) ].

Definition df_schema : list (string * (PriceObservation -> cell)) :=
  csv_schema ++ [ ("Day", fun r => Str (date_str (DateTime r))) ].

(** A schema over rows that carry their label. *)
Definition labelled {R : Type} (sch : list (string * (R -> cell))) :
    list (string * (nat * R -> cell)) :=
  map (fun nf => (fst nf, fun lr : nat * R => snd nf (snd lr))) sch.

Definition label_of {R : Type} (lr : nat * R) : cell := Int (Z.of_nat (fst lr)).

Definition enumerate {R : Type} (rs : list R) : list (nat * R) :=
  combine (seq 0 (length rs)) rs.

Definition in_zone (r : PriceObservation) : bool :=
  existsb (String.eqb (MapCode r)) norwegian_zones.

Definition matches (day area : string) (r : PriceObservation) : bool :=
  String.eqb (MapCode r) area && String.eqb (date_str (DateTime r)) day.

(** The rows of [df], with their labels. *)
Definition df_rows (file : list PriceObservation) : list (nat * PriceObservation) :=
  List.filter (fun lr => in_zone (snd lr)) (enumerate file).

(** The dataframe [load_df] builds, row by row. *)
Definition df_value (file : list PriceObservation) : DataFrame :=
  frame_of label_of (labelled df_schema) (df_rows file).

(** The rows of [df] an (area, day) selection keeps. *)
Definition picked (day area : string) (file : list PriceObservation) :
    list (nat * PriceObservation) :=
  List.filter (fun lr => matches day area (snd lr)) (df_rows file).

(** The observations an (area, day) selection matches, in file order. *)
Definition selection (day area : string) (file : list PriceObservation) :
    list PriceObservation :=
  List.filter (matches day area) (List.filter in_zone file).

(** Insertion sort on rows, by the cell [key] gives. *)
Fixpoint insert_on {R : Type} (key : R -> cell) (x : R) (l : list R) : list R :=
  match l with
  | [] => [x]
  | y :: l' => if cell_leb (key x) (key y) then x :: l else y :: insert_on key x l'
  end.

Fixpoint sort_on {R : Type} (key : R -> cell) (l : list R) : list R :=
  match l with
  | [] => []
  | x :: l' => insert_on key x (sort_on key l')
  end.

Definition time_of (r : PriceObservation) : cell := Time (DateTime r).
Definition price_of (r : PriceObservation) : cell := Num (Price r).

(** The selected observations in the order [sort_values('DateTime')] puts
    them in. *)
Definition sorted_selection (day area : string) (file : list PriceObservation) :
    list PriceObservation :=
  sort_on time_of (selection day area file).

(** ** The vocabulary of the specification *)

(** [t] is the instant of the first (last) of the observations [sel]. *)
Definition earliest (sel : list PriceObservation) (t : Z) : Prop :=
  In t (map DateTime sel) /\ forall r, In r sel -> t <= DateTime r.

Definition latest (sel : list PriceObservation) (t : Z) : Prop :=
  In t (map DateTime sel) /\ forall r, In r sel -> DateTime r <= t.

(** [r] is the latest of the observations [sel] not after [t]. *)
Definition latest_before (sel : list PriceObservation) (t : Z) (r : PriceObservation) : Prop :=
  In r sel /\ DateTime r <= t /\
  forall r', In r' sel -> DateTime r' <= t -> DateTime r' <= DateTime r.

Definition by_time (a b : PriceObservation) : Prop := DateTime a <= DateTime b.

Definition quarter : Z := 15 * minute.

(** The number of quarter-hour slots from [first] up to 59 minutes after
    [last]. *)
Definition slot_count (first last : Z) : nat :=
  Z.to_nat ((last + Timedelta 59 - first) / quarter + 1).

(** [n] consecutive quarter-hour slots from [start] on. *)
Definition slots_from (start : Z) (n : nat) : Series :=
  map (fun k => Time (start + Z.of_nat k * quarter)) (seq 0 n).

(** The grid the specification describes: the 96 quarter hours of the
    calendar day of [t], 00:00 through 23:45. *)
Definition day_grid (t : Z) : Series := slots_from (day_start t) 96.

(** The rows of the table the specification describes, for observations
    in time order: the label pairs a row's time with the next row's time,
    and the last row's time with 00:00. *)
Fixpoint mtu_rows (obs : list PriceObservation) : list (list cell) :=
  match obs with
  | [] => []
  | r :: rest =>
      [ Str (strftime_HM (DateTime r) +:+ " - " +:+
             match rest with
             | r' :: _ => strftime_HM (DateTime r')
             | [] => "00:00"
             end);
        Num (Price r) ] :: mtu_rows rest
  end.

(** What [fillna] does to one cell. *)
Definition fill_cell (v : string) (c : cell) : cell :=
  match c with NaN => Str v | _ => c end.

(** The labels [time + sep + next time] of the rows with times
    [t :: rest], built as the program concatenates them; the last row
    takes [last_] for the next time. *)
Fixpoint labels (sep last_ : string) (t : string) (rest : list string) : list string :=
  match rest with
  | [] => [(t +:+ sep) +:+ last_]
  | u :: rest' => ((t +:+ sep) +:+ u) :: labels sep last_ u rest'
  end.

(** The slots of a figure: each start with its price. *)
Definition slots (fig : Figure) : list (cell * cell) :=
  combine (fig_x fig) (fig_y fig).

(** The figure [plot_price] draws for the slots [x] with prices [y]. *)
Definition figure_of (x y : Series) : Figure :=
  {| fig_x := x; fig_y := y; line_shape := "hv"; title := "Day-ahead prices";
     xaxis_title := "Time [Hours]"; yaxis_title := "Price per MTU [EUR / MWh]";
     xaxis_tickformat := "%H:%M"; hovermode := "x unified";
     hovertemplate := "PT60M: %{y}" |}.

(** ** Sample inputs *)

(** The global variable [df]. *)
Definition df : loc := 0%nat.

(** The heap once the module is loaded: [df] and nothing else. *)
Definition heap_of (file : list PriceObservation) : gmap nat DataFrame :=
  match load_df file with
  | Ok d => {[ df := d ]}
  | Raise _ => ∅
  end.

Definition observation (zone : string) (t : Z) (p : Q) : PriceObservation :=
  {| DateTime := t; ResolutionCode := "PT60M"; AreaCode := "10YNO-0--------C";
     AreaTypeCode := "BZN"; AreaName := zone +:+ " BZ"; MapCode := zone;
     Price := p; Currency := "EUR"; UpdateTime := "2023-01-14 12:00:00" |}.

(** Lines for another zone, another country and another day. *)
Definition other_lines : list PriceObservation :=
  [ observation "NO1" (jan2023 14 0 0) (40 # 1);
    observation "DE_LU" (jan2023 14 0 0) (30 # 1);
    observation "NO3" (jan2023 15 0 0) (60 # 1) ].

(** NO3 on 2023-01-15: one observation at 00:00, of price 50.2. *)
Definition single_observation : list PriceObservation :=
  observation "NO3" (jan2023 14 0 0) (502 # 10) :: other_lines.


(** NO3 on 2023-01-15: one observation at 10:00. *)
Definition late_observation : list PriceObservation :=
  observation "NO3" (jan2023 14 10 0) (502 # 10) :: other_lines.

(** NO3 on 2023-01-15: hourly, 00:00 through 23:00. *)
Definition hourly_day : list PriceObservation :=
  map (fun k => observation "NO3" (jan2023 14 (Z.of_nat k) 0) (Z.of_nat k # 1)) (seq 0 24)
  ++ other_lines.

(** The grid of [hourly_day]. *)
Definition hourly_grid : Series :=
  slots_from (jan2023 14 0 0) (slot_count (jan2023 14 0 0) (jan2023 14 23 0)).

(** The chart of [hourly_day]: 96 slots, each hour's price four times. *)
Definition hourly_figure : Figure :=
  figure_of (slots_from (jan2023 14 0 0) 96)
            (map (fun k => Num (Z.of_nat (k / 4) # 1)) (seq 0 96)).

(** The chart of [late_observation]: the four slots from 10:00 on. *)
Definition late_figure : Figure :=
  figure_of (slots_from (jan2023 14 10 0) 4)
            [Num (502 # 10); Num (502 # 10); Num (502 # 10); Num (502 # 10)].


(** ** The callbacks and the pickers *)

(** [update_plot(day, area)], lines 247 to 249: the chart callback calls
    [plot_price] with its default [data], the global [df]. *)
Definition update_plot (day area : string) : M Figure := plot_price day area df.

(** The table callback: [update_table(day, area)] with its default [data]. *)
Definition update_table_callback (day area : string) : M Table :=
  update_table day area df.

(** [ts.date()]: a calendar date, as its number of days since 1970-01-01;
    the date of NaT is NaT. *)
Definition Timestamp_date (ts : cell) : option Z :=
  match ts with
  | Time t => Some (t / day_ns)
  | _ => None
  end.

(** [str(date)] *)
Definition date_isoformat (n : Z) : string := date_str (n * day_ns).

(** The properties the program sets on [dcc.DatePickerSingle]. *)
Record DatePickerSingle : Type := {
  min_date_allowed : option Z;
  max_date_allowed : option Z;
  date : Z
}.

(** [date(2023, 1, 1)] *)
Definition date_2023_01_01 : Z := 19358.

(** [datepicker], lines 176 to 181; [s.min()] and [s.max()] of a datetime
    column are those of an index. *)
Definition datepicker (d : DataFrame) : result DatePickerSingle :=
  let? lo := getitem d "DateTime" in
  let? hi := getitem d "DateTime" in
  Ok {| min_date_allowed := Timestamp_date (index_min lo);
        max_date_allowed := Timestamp_date (index_max hi);
        date := date_2023_01_01 |}.

(** The properties the program sets on [dcc.RadioItems]: the options, each
    a label and a value, and the value selected at first. *)
Record RadioItems : Type := {
  options : list (string * string);
  value : string
}.

(** [areapicker], lines 184 to 194. *)
Definition areapicker : RadioItems :=
  {| options := [ ("East coast", "NO1"); ("South coast", "NO2");
                  ("Central Norway", "NO3"); ("Northern Norway", "NO4");
                  ("West coast", "NO5") ];
     value := "NO1" |}.

(** A dataframe without the columns of [df]. *)
Definition bare_frame : DataFrame :=
  {| index := [Int 0; Int 1]; columns := [("Price", [Num (1 # 1); Num (2 # 1)])] |}.

(** A dataframe with the columns the selection reads and no [Price]. *)
Definition frame_without_price : DataFrame :=
  {| index := [Int 0; Int 1];
     columns := [ ("DateTime", [Time (jan2023 14 1 0); Time (jan2023 14 0 0)]);
                  ("MapCode", [Str "NO3"; Str "NO3"]);
                  ("Day", [Str "2023-01-15"; Str "2023-01-15"]) ] |}.

(** Lines out of time order, two of them for NO3 on 2023-01-15. *)
Definition shuffled_lines : list PriceObservation :=
  [ observation "NO3" (jan2023 14 10 0) (7 # 1);
    observation "NO1" (jan2023 14 0 0) (40 # 1);
    observation "NO3" (jan2023 14 8 0) (5 # 1) ].

Definition sorted_lines : list PriceObservation :=
  [ observation "NO3" (jan2023 14 8 0) (5 # 1);
    observation "NO3" (jan2023 14 10 0) (7 # 1) ].

(** * Proofs *)

(** ** Execution *)

Lemma unchanged_refl h : unchanged h h.
Proof. intros l v Hl. exact Hl. Qed.

Lemma unchanged_fresh h0 h : unchanged h0 h -> h0 !! fresh (dom h) = None.
Proof.
  intros Hu. destruct (h0 !! fresh (dom h)) as [v|] eqn:E; [|reflexivity].
  apply Hu in E. exfalso. apply (is_fresh (dom h)).
  apply elem_of_dom. eauto.
Qed.

Lemma unchanged_insert h0 h l d :
  h0 !! l = None -> unchanged h0 h -> unchanged h0 (<[l := d]> h).
Proof.
  intros Hl Hu k v Hk. rewrite lookup_insert_ne; [auto|].
  intros ->. congruence.
Qed.

Lemma unchanged_alloc h0 h d :
  unchanged h0 h -> unchanged h0 (<[fresh (dom h) := d]> h).
Proof. intros Hu. apply unchanged_insert; [apply unchanged_fresh|]; assumption. Qed.

Lemma wp_elim {A : Type} (m : M A) h post : wp m h post -> post (m h).1 (m h).2.
Proof. auto. Qed.

Lemma wp_bind {A B : Type} (m : M A) (k : A -> M B) h post :
  wp m h (fun h' r =>
    match r with
    | Ok a => wp (k a) h' post
    | Raise e => post h' (Raise e)
    end) ->
  wp (m ≫= k) h post.
Proof.
  unfold wp, mbind, M_bind, bind. destruct (m h) as [h' [a|e]]; simpl; auto.
Qed.

Lemma wp_ret {A : Type} (a : A) h (post : _ -> result A -> Prop) :
  post h (Ok a) -> wp (mret a) h post.
Proof. auto. Qed.

Lemma wp_lift {A : Type} (r : result A) h (post : _ -> result A -> Prop) :
  post h r -> wp (lift r) h post.
Proof. auto. Qed.

Lemma wp_load l d h (post : _ -> result DataFrame -> Prop) :
  h !! l = Some d -> post h (Ok d) -> wp (load l) h post.
Proof. unfold wp, load. intros ->. auto. Qed.

Lemma wp_alloc d h (post : _ -> result loc -> Prop) :
  post (<[fresh (dom h) := d]> h) (Ok (fresh (dom h))) -> wp (alloc d) h post.
Proof. auto. Qed.

Lemma wp_store l d h (post : _ -> result unit -> Prop) :
  post (<[l := d]> h) (Ok tt) -> wp (store l d) h post.
Proof. auto. Qed.

#[global] Opaque wp.

Lemma owned_alloc h0 h d :
  unchanged h0 h -> owned h0 (<[fresh (dom h) := d]> h) (fresh (dom h)) d.
Proof.
  intros Hu. split; [|split].
  - apply unchanged_alloc, Hu.
  - apply unchanged_fresh, Hu.
  - apply lookup_insert_eq.
Qed.

Lemma owned_store h0 h l d d' :
  owned h0 h l d -> owned h0 (<[l := d']> h) l d'.
Proof.
  intros (Hu & Hl & _). split; [|split].
  - apply unchanged_insert; assumption.
  - assumption.
  - apply lookup_insert_eq.
Qed.

Lemma wp_column obj name d h (post : _ -> result Series -> Prop) :
  h !! obj = Some d -> post h (getitem d name) -> wp (column obj name) h post.
Proof.
  intros Hd Hp. unfold column. apply wp_bind, (wp_load _ d); [assumption|].
  cbv beta iota. apply wp_lift, Hp.
Qed.

Section Rules.
Context {A : Type} (h0 h : gmap nat DataFrame) (post : gmap nat DataFrame -> result A -> Prop).

(** The outcome of a pure step decides how the run goes on. *)
Lemma wp_lift_bind {B : Type} (r : result B) (k : B -> M A) :
  match r with
  | Ok b => wp (k b) h post
  | Raise e => post h (Raise e)
  end ->
  wp (lift r ≫= k) h post.
Proof. intros H. apply wp_bind, wp_lift. exact H. Qed.

Lemma wp_column_bind obj name d (k : Series -> M A) :
  h !! obj = Some d ->
  match getitem d name with
  | Ok c => wp (k c) h post
  | Raise e => post h (Raise e)
  end ->
  wp (column obj name ≫= k) h post.
Proof. intros Hd H. apply wp_bind, (wp_column _ _ d); assumption. Qed.

(** A method that builds a new object from the one behind [obj]. *)
Lemma wp_new_bind (f : DataFrame -> result DataFrame) obj d (k : loc -> M A) :
  h !! obj = Some d ->
  unchanged h0 h ->
  match f d with
  | Ok d' => forall h' l, owned h0 h' l d' -> wp (k l) h' post
  | Raise e => post h (Raise e)
  end ->
  wp ((x ← load obj; y ← lift (f x); alloc y) ≫= k) h post.
Proof.
  intros Hd Hu H. apply wp_bind, wp_bind, (wp_load _ d); [assumption|].
  cbv beta iota. apply wp_bind, wp_lift.
  destruct (f d) as [d'|e]; [|exact H].
  apply wp_alloc. cbv beta iota. apply H, owned_alloc, Hu.
Qed.

Lemma wp_new_total_bind (f : DataFrame -> DataFrame) obj d (k : loc -> M A) :
  h !! obj = Some d ->
  unchanged h0 h ->
  (forall h' l, owned h0 h' l (f d) -> wp (k l) h' post) ->
  wp ((x ← load obj; alloc (f x)) ≫= k) h post.
Proof.
  intros Hd Hu H. apply wp_bind, wp_bind, (wp_load _ d); [assumption|].
  cbv beta iota. apply wp_alloc. cbv beta iota. apply H, owned_alloc, Hu.
Qed.

(** A method that changes an object the program made itself. *)
Lemma wp_inplace_bind (f : DataFrame -> result DataFrame) obj d (k : unit -> M A) :
  owned h0 h obj d ->
  match f d with
  | Ok d' => forall h', owned h0 h' obj d' -> wp (k tt) h' post
  | Raise e => post h (Raise e)
  end ->
  wp ((x ← load obj; y ← lift (f x); store obj y) ≫= k) h post.
Proof.
  intros Ho H. apply wp_bind, wp_bind, (wp_load _ d); [apply Ho|].
  cbv beta iota. apply wp_bind, wp_lift.
  destruct (f d) as [d'|e]; [|exact H].
  apply wp_store. cbv beta iota. apply H. eapply owned_store, Ho.
Qed.

Lemma wp_inplace_total_bind (f : DataFrame -> DataFrame) obj d (k : unit -> M A) :
  owned h0 h obj d ->
  (forall h', owned h0 h' obj (f d) -> wp (k tt) h' post) ->
  wp ((x ← load obj; store obj (f x)) ≫= k) h post.
Proof.
  intros Ho H. apply wp_bind, wp_bind, (wp_load _ d); [apply Ho|].
  cbv beta iota. apply wp_store. cbv beta iota. apply H. eapply owned_store, Ho.
Qed.

Lemma wp_load_bind obj d (k : DataFrame -> M A) :
  h !! obj = Some d -> wp (k d) h post -> wp (load obj ≫= k) h post.
Proof. intros Hd H. apply wp_bind, (wp_load _ d); [assumption|exact H]. Qed.
End Rules.

Lemma wp_get_index_bind {A : Type} h post obj d (k : Series -> M A) :
  h !! obj = Some d -> wp (k (index d)) h post -> wp (get_index obj ≫= k) h post.
Proof.
  intros Hd H. unfold get_index. apply wp_bind, wp_bind, (wp_load _ d); [assumption|].
  cbv beta iota. apply wp_ret. exact H.
Qed.

(** After a pure step or a fallible method: go on if it succeeded, and if
    it raised, the heap is as [O] says and both sides stopped alike. *)
Ltac wp_case O :=
  match goal with
  | |- match ?r with Ok _ => _ | Raise _ => _ end =>
      destruct r; cbn [rbind]; [|split; [apply O | reflexivity]]
  end.

Ltac wp_new O h l O' :=
  first [ eapply wp_new_bind; [apply O | apply O |]; wp_case O
        | eapply wp_new_total_bind; [apply O | apply O |] ];
  intros h l O'.

Ltac wp_inplace O h O' :=
  first [ eapply wp_inplace_bind; [exact O |]; wp_case O
        | eapply wp_inplace_total_bind; [exact O |] ];
  intros h O'.

Ltac wp_pure O := apply wp_lift_bind; wp_case O.

Ltac wp_col O := eapply wp_column_bind; [apply O |]; wp_case O.

Lemma plot_price_wp day area data d h0 :
  h0 !! data = Some d ->
  wp (plot_price day area data) h0
     (fun h r => unchanged h0 h /\ r = plot_price_value day area d).
Proof.
  intros Hd.
  assert (O0 : unchanged h0 h0 /\ h0 !! data = Some d)
    by (split; [apply unchanged_refl | exact Hd]).
  unfold plot_price, plot_price_value, select.
  wp_col O0. wp_col O0.
  unfold select_rows. wp_new O0 h1 selected O1.
  unfold copy.
  eapply wp_new_total_bind with (f := fun x => x); [apply O1 | apply O1 |].
  intros h2 subset O2.
  unfold sort_values_inplace. wp_inplace O2 h3 O3.
  unfold set_index_inplace. wp_inplace O3 h4 O4.
  eapply wp_get_index_bind; [apply O4|].
  eapply wp_get_index_bind; [apply O4|].
  wp_pure O4.
  unfold reindex_ffill. wp_new O4 h5 subset' O5.
  eapply wp_load_bind; [apply O5|].
  wp_pure O5.
  apply wp_ret. split; [apply O5 | reflexivity].
Qed.

Lemma update_table_wp day area data d h0 :
  h0 !! data = Some d ->
  wp (update_table day area data) h0
     (fun h r => unchanged h0 h /\ r = update_table_value day area d).
Proof.
  intros Hd.
  assert (O0 : unchanged h0 h0 /\ h0 !! data = Some d)
    by (split; [apply unchanged_refl | exact Hd]).
  unfold update_table, update_table_value, select.
  wp_col O0. wp_col O0.
  unfold select_rows. wp_new O0 h1 selected O1.
  unfold copy at 1.
  eapply wp_new_total_bind with (f := fun x => x); [apply O1 | apply O1 |].
  intros h2 subset O2.
  unfold sort_values_inplace. wp_inplace O2 h3 O3.
  unfold reset_index_new. wp_new O3 h4 renumbered O4.
  unfold rename_new. wp_new O4 h5 subset' O5.
  wp_col O5. wp_pure O5.
  unfold assign at 1. wp_inplace O5 h6 O6.
  wp_col O6.
  unfold assign at 1. wp_inplace O6 h7 O7.
  unfold fillna_inplace. wp_inplace O7 h8 O8.
  wp_col O8. wp_pure O8. wp_col O8. wp_pure O8.
  unfold assign. wp_inplace O8 h9 O9.
  unfold select_cols. wp_new O9 h10 selected' O10.
  unfold copy.
  eapply wp_new_total_bind with (f := fun x => x); [apply O10 | apply O10 |].
  intros h11 subset'' O11.
  eapply wp_load_bind; [apply O11|].
  apply wp_ret. split; [apply O11 | reflexivity].
Qed.

Lemma plot_price_run day area data d h :
  h !! data = Some d ->
  (plot_price day area data h).2 = plot_price_value day area d.
Proof. intros Hd. apply (wp_elim _ _ _ (plot_price_wp day area data d h Hd)). Qed.

Lemma update_table_run day area data d h :
  h !! data = Some d ->
  (update_table day area data h).2 = update_table_value day area d.
Proof. intros Hd. apply (wp_elim _ _ _ (update_table_wp day area data d h Hd)). Qed.

(** A figure is drawn over the grid built on the way, whatever the
    dataframe. *)
Lemma target_grid_of_figure day area d fig :
  plot_price_value day area d = Ok fig -> target_grid day area d = Ok (fig_x fig).
Proof.
  unfold plot_price_value, target_grid.
  destruct (select day area d) as [s0|e]; cbn [rbind]; [|discriminate].
  destruct (sort_values s0 "DateTime") as [s1|e]; cbn [rbind]; [|discriminate].
  destruct (set_index s1 "DateTime") as [s2|e]; cbn [rbind]; [|discriminate].
  destruct (date_range _ _ _) as [t_index|e]; cbn [rbind]; [|discriminate].
  unfold reindex.
  destruct (negb (is_unique (index s2))); cbn [rbind]; [discriminate|].
  destruct (negb (is_monotonic_increasing (index s2))); cbn [rbind]; [discriminate|].
  unfold px_line. cbn [columns index].
  destruct (lookup_col "Price" _); cbn [rbind]; [|discriminate].
  intros [= <-]. reflexivity.
Qed.

(** ** Row operations, row by row *)

Section RowView.
Context {R : Type}.
Implicit Types (rs : list R) (lab key : R -> cell).

Lemma mask_filter_map {B : Type} (p : R -> bool) (f : R -> B) rs :
  mask_filter (map p rs) (map f rs) = map f (List.filter p rs).
Proof.
  induction rs as [|r rs IH]; simpl; [reflexivity|].
  destruct (p r); simpl; rewrite IH; reflexivity.
Qed.

Lemma mask_and_map (p q : R -> bool) rs :
  mask_and (map p rs) (map q rs) = map (fun r => p r && q r) rs.
Proof. induction rs as [|r rs IH]; simpl; [|rewrite IH]; reflexivity. Qed.

Lemma eq_str_map (g : R -> string) v rs :
  eq_str (map (fun r => Str (g r)) rs) v = map (fun r => String.eqb (g r) v) rs.
Proof. unfold eq_str. rewrite map_map. reflexivity. Qed.

Lemma isin_map (g : R -> string) vs rs :
  isin (map (fun r => Str (g r)) rs) vs
  = map (fun r => existsb (String.eqb (g r)) vs) rs.
Proof. unfold isin. rewrite map_map. reflexivity. Qed.

Lemma map_rows_frame_of (g : Series -> Series) (g' : list R -> list R) lab sch rs :
  (forall f : R -> cell, g (map f rs) = map f (g' rs)) ->
  map_rows g (frame_of lab sch rs) = frame_of lab sch (g' rs).
Proof.
  intros Hg. unfold map_rows, frame_of; simpl. rewrite Hg. f_equal.
  rewrite map_map. apply map_ext. intros [n f]; simpl. rewrite Hg. reflexivity.
Qed.

Lemma getitem_mask_frame_of (p : R -> bool) lab sch rs :
  getitem_mask (frame_of lab sch rs) (map p rs)
  = frame_of lab sch (List.filter p rs).
Proof.
  unfold getitem_mask. apply map_rows_frame_of. intros f. apply mask_filter_map.
Qed.

Lemma insert_by_map {B : Type} key (f : R -> B) x l :
  insert_by (key x) (f x) (map (fun r => (key r, f r)) l)
  = map (fun r => (key r, f r)) (insert_on key x l).
Proof.
  induction l as [|y l IH]; simpl; [reflexivity|].
  destruct (cell_leb (key x) (key y)); simpl; [reflexivity|].
  rewrite IH. reflexivity.
Qed.

Lemma sort_pairs_map {B : Type} key (f : R -> B) rs :
  sort_pairs (map (fun r => (key r, f r)) rs)
  = map (fun r => (key r, f r)) (sort_on key rs).
Proof.
  induction rs as [|r rs IH]; simpl; [reflexivity|].
  rewrite IH. apply insert_by_map.
Qed.

Lemma combine_map {B C : Type} (f : R -> B) (g : R -> C) rs :
  combine (map f rs) (map g rs) = map (fun r => (f r, g r)) rs.
Proof. induction rs as [|r rs IH]; simpl; [|rewrite IH]; reflexivity. Qed.

Lemma sort_by_map {B : Type} key (f : R -> B) rs :
  sort_by (map key rs) (map f rs) = map f (sort_on key rs).
Proof.
  unfold sort_by. rewrite combine_map, sort_pairs_map, map_map. reflexivity.
Qed.

Lemma sort_rows_frame_of key lab sch rs :
  map_rows (sort_by (map key rs)) (frame_of lab sch rs)
  = frame_of lab sch (sort_on key rs).
Proof. apply map_rows_frame_of. intros f. apply sort_by_map. Qed.

(** Sorting is a rearrangement. *)
Lemma insert_on_perm key x l : Permutation (insert_on key x l) (x :: l).
Proof.
  induction l as [|y l IH]; simpl; [reflexivity|].
  destruct (cell_leb (key x) (key y)); [reflexivity|].
  rewrite IH. apply perm_swap.
Qed.

Lemma sort_on_perm key rs : Permutation (sort_on key rs) rs.
Proof.
  induction rs as [|r rs IH]; simpl; [reflexivity|].
  rewrite insert_on_perm. apply perm_skip, IH.
Qed.

Lemma sort_on_length key rs : length (sort_on key rs) = length rs.
Proof. apply Permutation_length, sort_on_perm. Qed.
End RowView.

(** Dropping the labels commutes with filtering and sorting on the rows. *)
Lemma filter_snd {R : Type} (p : R -> bool) (lrs : list (nat * R)) :
  map snd (List.filter (fun lr => p (snd lr)) lrs) = List.filter p (map snd lrs).
Proof.
  induction lrs as [|[l r] lrs IH]; simpl; [reflexivity|].
  destruct (p r); simpl; rewrite IH; reflexivity.
Qed.

Lemma insert_on_snd {R : Type} (key : R -> cell) (x : nat * R) lrs :
  map snd (insert_on (fun lr => key (snd lr)) x lrs)
  = insert_on key (snd x) (map snd lrs).
Proof.
  induction lrs as [|y lrs IH]; simpl; [reflexivity|].
  destruct (cell_leb (key (snd x)) (key (snd y))); simpl; [|rewrite IH]; reflexivity.
Qed.

Lemma sort_on_snd {R : Type} (key : R -> cell) (lrs : list (nat * R)) :
  map snd (sort_on (fun lr => key (snd lr)) lrs) = sort_on key (map snd lrs).
Proof.
  induction lrs as [|x lrs IH]; simpl; [reflexivity|].
  rewrite insert_on_snd, IH. reflexivity.
Qed.

Lemma enumerate_snd {R : Type} (rs : list R) : map snd (enumerate rs) = rs.
Proof.
  unfold enumerate. generalize 0%nat.
  induction rs as [|r rs IH]; intros n; simpl; [|rewrite IH]; reflexivity.
Qed.

Lemma frame_of_labelled {R : Type} (lab : R -> cell) sch (lrs : list (nat * R)) :
  frame_of (fun lr => lab (snd lr)) (labelled sch) lrs = frame_of lab sch (map snd lrs).
Proof.
  unfold frame_of, labelled; simpl. rewrite !map_map. f_equal.
  apply map_ext. intros [n f]; simpl. rewrite map_map. reflexivity.
Qed.

(** ** The global dataframe *)

Lemma row_labels_enumerate {R : Type} (rs : list R) :
  row_labels (length rs) = map label_of (enumerate rs).
Proof.
  unfold row_labels, enumerate, label_of. generalize 0%nat.
  induction rs as [|r rs IH]; intros n; simpl; [|rewrite IH]; reflexivity.
Qed.

Lemma map_enumerate {R B : Type} (f : R -> B) (rs : list R) :
  map (fun lr => f (snd lr)) (enumerate rs) = map f rs.
Proof. rewrite <- (map_map snd f), enumerate_snd. reflexivity. Qed.

Lemma frame_of_enumerate {R : Type} (sch : list (string * (R -> cell))) (rs : list R) :
  frame_of label_of (labelled sch) (enumerate rs)
  = {| index := row_labels (length rs);
       columns := map (fun nf => (fst nf, map (snd nf) rs)) sch |}.
Proof.
  unfold frame_of, labelled. rewrite row_labels_enumerate, map_map. f_equal.
  apply map_ext. intros [n f]; simpl. rewrite map_enumerate. reflexivity.
Qed.

Lemma read_csv_rows file :
  read_csv file = frame_of label_of (labelled csv_schema) (enumerate file).
Proof. rewrite frame_of_enumerate. reflexivity. Qed.

Lemma dt_map_times {R : Type} (f : Z -> string) (g : R -> Z) (rs : list R) :
  dt_map f (map (fun r => Time (g r)) rs) = Ok (map (fun r => Str (f (g r))) rs).
Proof.
  unfold dt_map. induction rs as [|r rs IH]; simpl; [|rewrite IH]; reflexivity.
Qed.

Lemma load_df_ok file : load_df file = Ok (df_value file).
Proof.
  unfold load_df. rewrite read_csv_rows.
  change (getitem (frame_of label_of (labelled csv_schema) (enumerate file)) "MapCode")
    with (Ok (map (fun lr : nat * PriceObservation => Str (MapCode (snd lr))) (enumerate file))).
  cbn [rbind]. rewrite (isin_map (fun lr => MapCode (snd lr))).
  change (map _ (enumerate file))
    with (map (fun lr : nat * PriceObservation => in_zone (snd lr)) (enumerate file)).
  rewrite getitem_mask_frame_of.
  fold (df_rows file).
  change (getitem (frame_of label_of (labelled csv_schema) (df_rows file)) "DateTime")
    with (Ok (map (fun lr : nat * PriceObservation => Time (DateTime (snd lr))) (df_rows file))).
  cbn [rbind]. unfold dt_date_str.
  rewrite (dt_map_times date_str (fun lr => DateTime (snd lr))).
  reflexivity.
Qed.

Lemma df_rows_snd file : map snd (df_rows file) = List.filter in_zone file.
Proof. unfold df_rows. rewrite filter_snd, enumerate_snd. reflexivity. Qed.

(** ** The selected rows *)

Section Selected.
Variables (day area : string) (file : list PriceObservation).

Lemma select_rows_of_df :
  select day area (df_value file)
  = Ok (frame_of label_of (labelled df_schema) (picked day area file)).
Proof.
  unfold select, df_value, picked.
  change (getitem _ "MapCode")
    with (Ok (map (fun lr : nat * PriceObservation => Str (MapCode (snd lr))) (df_rows file))).
  cbn [rbind].
  change (getitem _ "Day")
    with (Ok (map (fun lr : nat * PriceObservation => Str (date_str (DateTime (snd lr))))
                  (df_rows file))).
  cbn [rbind].
  rewrite (eq_str_map (fun lr => MapCode (snd lr))).
  rewrite (eq_str_map (fun lr => date_str (DateTime (snd lr)))).
  rewrite mask_and_map.
  change (map _ (df_rows file))
    with (map (fun lr : nat * PriceObservation => matches day area (snd lr)) (df_rows file)).
  rewrite getitem_mask_frame_of. reflexivity.
Qed.

Lemma sort_values_rows (lrs : list (nat * PriceObservation)) :
  sort_values (frame_of label_of (labelled df_schema) lrs) "DateTime"
  = Ok (frame_of label_of (labelled df_schema)
          (sort_on (fun lr => time_of (snd lr)) lrs)).
Proof.
  unfold sort_values.
  change (getitem _ "DateTime")
    with (Ok (map (fun lr : nat * PriceObservation => time_of (snd lr)) lrs)).
  cbn [rbind]. rewrite sort_rows_frame_of. reflexivity.
Qed.

Lemma picked_sorted_snd :
  map snd (sort_on (fun lr => time_of (snd lr)) (picked day area file))
  = sorted_selection day area file.
Proof.
  unfold picked, sorted_selection, selection.
  rewrite sort_on_snd, filter_snd, df_rows_snd. reflexivity.
Qed.

Lemma plot_price_value_rows :
  plot_price_value day area (df_value file) =
    let obs := sorted_selection day area file in
    let ix := map time_of obs in
    let? t_index := date_range (index_min ix)
                      (add_timedelta (index_max ix) (Timedelta 59)) (15 * minute) in
    if negb (is_unique ix) then
      Raise (ValueError "cannot reindex on an axis with duplicate labels")
    else if negb (is_monotonic_increasing ix) then
      Raise (ValueError "index must be monotonic increasing or decreasing")
    else Ok (figure_of t_index (map (ffill ix (map price_of obs)) t_index)).
Proof.
  unfold plot_price_value. rewrite select_rows_of_df. cbn [rbind].
  rewrite sort_values_rows. cbn [rbind].
  change (set_index _ "DateTime")
    with (Ok (frame_of (fun lr : nat * PriceObservation => time_of (snd lr))
                (labelled (tl df_schema))
                (sort_on (fun lr => time_of (snd lr)) (picked day area file)))).
  cbn [rbind]. rewrite frame_of_labelled, picked_sorted_snd.
  cbv zeta. cbn [index frame_of].
  destruct (date_range _ _ _) as [t_index|e]; cbn [rbind]; [|reflexivity].
  unfold reindex. cbn [index frame_of].
  destruct (negb (is_unique _)); [reflexivity|].
  destruct (negb (is_monotonic_increasing _)); reflexivity.
Qed.
End Selected.

(** ** The sorted index *)

Lemma cell_leb_time a b : cell_leb (time_of a) (time_of b) = (DateTime a <=? DateTime b).
Proof. reflexivity. Qed.

Lemma insert_on_sorted x l :
  StronglySorted by_time l -> StronglySorted by_time (insert_on time_of x l).
Proof.
  induction 1 as [|y l Hl IH Hy]; cbn [insert_on].
  - constructor; constructor.
  - rewrite cell_leb_time. destruct (Z.leb_spec (DateTime x) (DateTime y)) as [Hxy|Hxy].
    + constructor; [constructor; assumption|].
      constructor; [exact Hxy|].
      eapply List.Forall_impl; [|exact Hy]. unfold by_time. intros; lia.
    + constructor; [exact IH|].
      eapply Permutation_Forall; [symmetry; apply insert_on_perm|].
      constructor; [unfold by_time; lia | exact Hy].
Qed.

Lemma sort_on_sorted l : StronglySorted by_time (sort_on time_of l).
Proof.
  induction l as [|x l IH]; simpl; [constructor | apply insert_on_sorted, IH].
Qed.


Lemma monotonic_sorted l :
  StronglySorted by_time l -> is_monotonic_increasing (map time_of l) = true.
Proof.
  induction 1 as [|x l Hl IH Hx]; [reflexivity|].
  destruct l as [|y l']; [reflexivity|].
  change (cell_leb (time_of x) (time_of y)
          && is_monotonic_increasing (map time_of (y :: l')) = true).
  rewrite IH, cell_leb_time, andb_true_r. apply Forall_inv in Hx.
  apply Z.leb_le, Hx.
Qed.

Lemma existsb_time t l :
  existsb (cell_eqb (Time t)) (map time_of l) = true <-> In t (map DateTime l).
Proof.
  induction l as [|x l IH]; simpl; [split; [discriminate | tauto]|].
  rewrite orb_true_iff, IH, Z.eqb_eq. split; intros [H|H]; auto.
Qed.

Lemma is_unique_times l :
  is_unique (map time_of l) = true <-> List.NoDup (map DateTime l).
Proof.
  induction l as [|x l IH]; simpl; [split; [constructor | reflexivity]|].
  rewrite andb_true_iff, negb_true_iff, IH, <- not_true_iff_false.
  rewrite (existsb_time (DateTime x) l). split.
  - intros [Hx Hn]. apply List.NoDup_cons; assumption.
  - intros H. apply List.NoDup_cons_iff in H. exact H.
Qed.

Lemma index_min_times x l :
  exists t, index_min (map time_of (x :: l)) = Time t /\ earliest (x :: l) t.
Proof.
  revert x. induction l as [|y l IH]; intros x.
  - exists (DateTime x). split; [reflexivity|]. split; [left; reflexivity|].
    intros r [<-|[]]. lia.
  - destruct (IH y) as (t & Ht & Hin & Hle).
    exists (Z.min (DateTime x) t). split.
    + change (index_min (map time_of (x :: y :: l)))
        with (match index_min (map time_of (y :: l)) with
              | Time u => Time (Z.min (DateTime x) u)
              | _ => Time (DateTime x)
              end).
      rewrite Ht. reflexivity.
    + split.
      * destruct (Z.min_spec (DateTime x) t) as [[_ ->]|[_ ->]];
          [left; reflexivity | right; exact Hin].
      * intros r [<-|Hr]; [lia|]. specialize (Hle r Hr). lia.
Qed.

Lemma index_max_times x l :
  exists t, index_max (map time_of (x :: l)) = Time t /\ latest (x :: l) t.
Proof.
  revert x. induction l as [|y l IH]; intros x.
  - exists (DateTime x). split; [reflexivity|]. split; [left; reflexivity|].
    intros r [<-|[]]. lia.
  - destruct (IH y) as (t & Ht & Hin & Hle).
    exists (Z.max (DateTime x) t). split.
    + change (index_max (map time_of (x :: y :: l)))
        with (match index_max (map time_of (y :: l)) with
              | Time u => Time (Z.max (DateTime x) u)
              | _ => Time (DateTime x)
              end).
      rewrite Ht. reflexivity.
    + split.
      * destruct (Z.max_spec (DateTime x) t) as [[_ ->]|[_ ->]];
          [right; exact Hin | left; reflexivity].
      * intros r [<-|Hr]; [lia|]. specialize (Hle r Hr). lia.
Qed.

(** The first and the last instant are determined, and a rearrangement
    keeps them. *)
Lemma earliest_unique sel t u : earliest sel t -> earliest sel u -> t = u.
Proof.
  intros [Ht Hle] [Hu Hle']. apply in_map_iff in Ht as (r & <- & Hr).
  apply in_map_iff in Hu as (r' & <- & Hr').
  specialize (Hle r' Hr'). specialize (Hle' r Hr). lia.
Qed.

Lemma latest_unique sel t u : latest sel t -> latest sel u -> t = u.
Proof.
  intros [Ht Hle] [Hu Hle']. apply in_map_iff in Ht as (r & <- & Hr).
  apply in_map_iff in Hu as (r' & <- & Hr').
  specialize (Hle r' Hr'). specialize (Hle' r Hr). lia.
Qed.

Lemma earliest_perm sel sel' t : Permutation sel sel' -> earliest sel t -> earliest sel' t.
Proof.
  intros Hp [Ht Hle]. split.
  - eapply Permutation_in; [apply Permutation_map, Hp | exact Ht].
  - intros r Hr. apply Hle. eapply Permutation_in; [symmetry; exact Hp | exact Hr].
Qed.

Lemma latest_perm sel sel' t : Permutation sel sel' -> latest sel t -> latest sel' t.
Proof.
  intros Hp [Ht Hle]. split.
  - eapply Permutation_in; [apply Permutation_map, Hp | exact Ht].
  - intros r Hr. apply Hle. eapply Permutation_in; [symmetry; exact Hp | exact Hr].
Qed.

(** ** Forward fill *)

Lemma latest_before_perm sel sel' t r :
  Permutation sel sel' -> latest_before sel t r -> latest_before sel' t r.
Proof.
  intros Hp (Hr & Hle & Hmax). split; [|split].
  - eapply Permutation_in; eassumption.
  - exact Hle.
  - intros r' Hr'. apply Hmax. eapply Permutation_in; [symmetry|]; eassumption.
Qed.

Section ForwardFill.
Variable f : PriceObservation -> cell.

Lemma pad_sorted l t found :
  StronglySorted by_time l ->
  (exists r, latest_before l t r /\
     pad (map (fun r => (time_of r, f r)) l) (Time t) found = Some (f r))
  \/ ((forall r, In r l -> t < DateTime r) /\
      pad (map (fun r => (time_of r, f r)) l) (Time t) found = found).
Proof.
  intros Hs. revert found. induction Hs as [|x l Hl IH Hx]; intros found.
  - right. split; [intros r []|reflexivity].
  - cbn [map pad]. change (cell_leb (time_of x) (Time t)) with (DateTime x <=? t).
    rewrite List.Forall_forall in Hx. unfold by_time in Hx.
    destruct (Z.leb_spec (DateTime x) t) as [Hxt|Hxt].
    + left. destruct (IH (Some (f x))) as [(r & (Hr & Hrt & Hmax) & Hp)|(Hall & Hp)].
      * exists r. split; [|exact Hp]. split; [right; exact Hr|]. split; [exact Hrt|].
        intros r' [<-|Hr'] Hr't; [apply Hx, Hr | apply Hmax; assumption].
      * exists x. split; [|exact Hp]. split; [left; reflexivity|]. split; [exact Hxt|].
        intros r' [<-|Hr'] Hr't; [lia|]. specialize (Hall r' Hr'). lia.
    + right. split; [|reflexivity].
      intros r [<-|Hr]; [exact Hxt|]. specialize (Hx r Hr). lia.
Qed.

Lemma ffill_sorted l t :
  StronglySorted by_time l ->
  (exists r, latest_before l t r /\ ffill (map time_of l) (map f l) (Time t) = f r)
  \/ ((forall r, In r l -> t < DateTime r) /\
      ffill (map time_of l) (map f l) (Time t) = NaN).
Proof.
  intros Hs. unfold ffill. rewrite combine_map.
  destruct (pad_sorted l t None Hs) as [(r & Hr & ->)|(Hall & ->)]; [left|right]; eauto.
Qed.
End ForwardFill.

(** ** The chart of a selection *)

Lemma date_range_slots first last :
  date_range (Time first) (add_timedelta (Time last) (Timedelta 59)) (15 * minute)
  = Ok (slots_from first (slot_count first last)).
Proof. reflexivity. Qed.

Lemma sorted_selection_perm day area file :
  Permutation (sorted_selection day area file) (selection day area file).
Proof. apply sort_on_perm. Qed.

Lemma sorted_selection_sorted day area file :
  StronglySorted by_time (sorted_selection day area file).
Proof. apply sort_on_sorted. Qed.

Section Chart.
Variables (file : list PriceObservation) (d : DataFrame).
Variables (h : gmap nat DataFrame) (data : loc) (day area : string).
Hypothesis Hload : load_df file = Ok d.
Hypothesis Hdata : h !! data = Some d.

Lemma plot_price_rows :
  (plot_price day area data h).2 =
    let obs := sorted_selection day area file in
    let ix := map time_of obs in
    let? t_index := date_range (index_min ix)
                      (add_timedelta (index_max ix) (Timedelta 59)) (15 * minute) in
    if negb (is_unique ix) then
      Raise (ValueError "cannot reindex on an axis with duplicate labels")
    else if negb (is_monotonic_increasing ix) then
      Raise (ValueError "index must be monotonic increasing or decreasing")
    else Ok (figure_of t_index (map (ffill ix (map price_of obs)) t_index)).
Proof.
  rewrite (plot_price_run day area data d h Hdata).
  rewrite load_df_ok in Hload. injection Hload as <-.
  apply plot_price_value_rows.
Qed.

(** With no observation selected, the grid has no start. *)
Lemma plot_price_empty :
  selection day area file = [] ->
  (plot_price day area data h).2
  = Raise (ValueError "Neither `start` nor `end` can be NaT").
Proof.
  intros Hsel. rewrite plot_price_rows. unfold sorted_selection.
  rewrite Hsel. reflexivity.
Qed.

(** Two observations at one instant: [reindex] refuses the index. *)
Lemma plot_price_duplicates :
  selection day area file <> [] ->
  ~ List.NoDup (map DateTime (selection day area file)) ->
  (plot_price day area data h).2
  = Raise (ValueError "cannot reindex on an axis with duplicate labels").
Proof.
  intros Hne Hdup. rewrite plot_price_rows. cbv zeta.
  pose proof (sorted_selection_perm day area file) as Hp.
  destruct (sorted_selection day area file) as [|x l] eqn:E.
  - apply Permutation_nil in Hp. congruence.
  - destruct (index_min_times x l) as (t & -> & _).
    destruct (index_max_times x l) as (u & -> & _).
    rewrite date_range_slots. cbn [rbind].
    destruct (is_unique (map time_of (x :: l))) eqn:Eu; [|reflexivity].
    exfalso. apply Hdup. apply is_unique_times in Eu.
    eapply Permutation_NoDup; [apply Permutation_map, Hp | exact Eu].
Qed.

(** Otherwise the figure holds the quarter-hour slots from the first
    observation up to 59 minutes after the last, each with the
    forward-filled price. *)
Lemma plot_price_returns first last :
  earliest (selection day area file) first ->
  latest (selection day area file) last ->
  List.NoDup (map DateTime (selection day area file)) ->
  (plot_price day area data h).2 =
    let obs := sorted_selection day area file in
    let grid := slots_from first (slot_count first last) in
    Ok (figure_of grid (map (ffill (map time_of obs) (map price_of obs)) grid)).
Proof.
  intros Hfirst Hlast Hnd. rewrite plot_price_rows. cbv zeta.
  pose proof (sorted_selection_perm day area file) as Hp.
  pose proof (sorted_selection_sorted day area file) as Hs.
  assert (Hu : is_unique (map time_of (sorted_selection day area file)) = true).
  { apply is_unique_times. eapply Permutation_NoDup; [|exact Hnd].
    apply Permutation_map. symmetry. exact Hp. }
  rewrite Hu, (monotonic_sorted _ Hs). cbn [negb].
  destruct (sorted_selection day area file) as [|x l] eqn:E.
  - destruct Hfirst as [Hin _]. apply Permutation_nil in Hp.
    rewrite Hp in Hin. destruct Hin.
  - destruct (index_min_times x l) as (t & -> & Ht).
    destruct (index_max_times x l) as (u & -> & Hu').
    rewrite (earliest_unique _ _ _ (earliest_perm _ _ _ Hp Ht) Hfirst).
    rewrite (latest_unique _ _ _ (latest_perm _ _ _ Hp Hu') Hlast).
    rewrite date_range_slots. reflexivity.
Qed.
End Chart.

(** ** The grid *)

Lemma slots_from_length start n : length (slots_from start n) = n.
Proof. unfold slots_from. rewrite length_map, length_seq. reflexivity. Qed.

Lemma in_slots_from start n x :
  In x (slots_from start n) <->
  exists k, (k < n)%nat /\ x = Time (start + Z.of_nat k * quarter).
Proof.
  unfold slots_from. rewrite in_map_iff. split.
  - intros (k & <- & Hk). apply in_seq in Hk. exists k. split; [lia | reflexivity].
  - intros (k & Hk & ->). exists k. split; [reflexivity | apply in_seq; lia].
Qed.

Lemma slots_figure_of (g : cell -> cell) x :
  slots (figure_of x (map g x)) = map (fun t => (t, g t)) x.
Proof.
  unfold slots, figure_of; simpl. induction x as [|t x IH]; simpl; [|rewrite IH]; reflexivity.
Qed.


Lemma earliest_le_latest sel first last :
  earliest sel first -> latest sel last -> first <= last.
Proof.
  intros [Hin _] [_ Hle]. apply in_map_iff in Hin as (r & <- & Hr). apply Hle, Hr.
Qed.

(** The grid ends at the last quarter hour not after [last] plus 59
    minutes; it always has the four slots of the first hour. *)
Lemma slot_count_last first last :
  first <= last ->
  exists n, slot_count first last = S n /\ (3 <= n)%nat /\
    first + Z.of_nat n * quarter <= last + Timedelta 59
      < first + Z.of_nat n * quarter + quarter.
Proof.
  intros Hle. unfold slot_count.
  set (q := (last + Timedelta 59 - first) / quarter).
  assert (Hq : q * quarter <= last + Timedelta 59 - first < q * quarter + quarter).
  { unfold q, quarter, Timedelta, minute in *.
    pose proof (Z.div_mod (last + 59 * 60000000000 - first) (15 * 60000000000)).
    pose proof (Z.mod_pos_bound (last + 59 * 60000000000 - first) (15 * 60000000000)).
    lia. }
  assert (3 <= q) by (unfold quarter, Timedelta, minute in *; lia).
  exists (Z.to_nat q). split; [lia|]. split; [lia|].
  rewrite Z2Nat.id by lia. lia.
Qed.


(** With distinct instants, an instant names its observation. *)
Lemma same_time_same_obs sel r r' :
  List.NoDup (map DateTime sel) -> In r sel -> In r' sel ->
  DateTime r = DateTime r' -> r = r'.
Proof.
  induction sel as [|x sel IH]; intros Hnd Hr Hr' Heq; [destruct Hr|].
  simpl in Hnd. apply List.NoDup_cons_iff in Hnd as [Hx Hnd].
  destruct Hr as [<-|Hr], Hr' as [<-|Hr']; auto.
  - exfalso. apply Hx. rewrite Heq. apply in_map, Hr'.
  - exfalso. apply Hx. rewrite <- Heq. apply in_map, Hr.
Qed.

Lemma latest_before_unique sel t r r' :
  List.NoDup (map DateTime sel) ->
  latest_before sel t r -> latest_before sel t r' -> r = r'.
Proof.
  intros Hnd (Hr & Hrt & Hmax) (Hr' & Hr't & Hmax').
  apply (same_time_same_obs sel); auto.
  specialize (Hmax r' Hr' Hr't). specialize (Hmax' r Hr Hrt). lia.
Qed.






(** ** The resampled series *)

Section Resampling.
Variables (file : list PriceObservation) (d : DataFrame).
Variables (h : gmap nat DataFrame) (data : loc) (day area : string).
Variables (first last : Z).
Hypothesis Hload : load_df file = Ok d.
Hypothesis Hdata : h !! data = Some d.
Hypothesis Hfirst : earliest (selection day area file) first.
Hypothesis Hlast : latest (selection day area file) last.
Hypothesis Hnd : List.NoDup (map DateTime (selection day area file)).

(** Every slot holds the price of the latest observation not after it. *)
Lemma plot_price_slots :
  exists fig,
    (plot_price day area data h).2 = Ok fig /\
    fig_x fig = slots_from first (slot_count first last) /\
    length (fig_y fig) = slot_count first last /\
    forall x y, In (x, y) (slots fig) <->
      exists k r, (k < slot_count first last)%nat /\
        x = Time (first + Z.of_nat k * quarter) /\
        latest_before (selection day area file) (first + Z.of_nat k * quarter) r /\
        y = Num (Price r).
Proof.
  eexists. split; [apply (plot_price_returns file d h data day area Hload Hdata first last); assumption|].
  cbv zeta. split; [reflexivity|]. split.
  { cbn [fig_y figure_of]. rewrite length_map. apply slots_from_length. }
  pose proof (sorted_selection_perm day area file) as Hp.
  pose proof (sorted_selection_sorted day area file) as Hs.
  assert (Hfill : forall k, exists r,
    latest_before (selection day area file) (first + Z.of_nat k * quarter) r /\
    ffill (map time_of (sorted_selection day area file))
          (map price_of (sorted_selection day area file))
          (Time (first + Z.of_nat k * quarter)) = Num (Price r)).
  { intros k.
    destruct (ffill_sorted price_of _ (first + Z.of_nat k * quarter) Hs)
      as [(r & Hr & Hv)|(Hall & _)].
    - exists r. split; [eapply latest_before_perm; eassumption | exact Hv].
    - exfalso. destruct Hfirst as [Hin _]. apply in_map_iff in Hin as (r & Ht & Hr).
      specialize (Hall r (Permutation_in _ (Permutation_sym Hp) Hr)).
      unfold quarter, minute in Hall. lia. }
  intros x y. rewrite slots_figure_of, in_map_iff. split.
  - intros (t & [= <- <-] & Ht). apply in_slots_from in Ht as (k & Hk & ->).
    destruct (Hfill k) as (r & Hr & Hv). exists k, r. auto.
  - intros (k & r & Hk & -> & Hr & ->).
    destruct (Hfill k) as (r' & Hr' & Hv).
    exists (Time (first + Z.of_nat k * quarter)). split.
    + rewrite Hv, (latest_before_unique _ _ _ _ Hnd Hr Hr'). reflexivity.
    + apply in_slots_from. eauto.
Qed.



Lemma slots_not_before_first fig :
  (plot_price day area data h).2 = Ok fig ->
  forall x y, In (x, y) (slots fig) -> exists t, x = Time t /\ first <= t.
Proof.
  destruct plot_price_slots as (fig' & Hfig' & _ & _ & Hslots).
  intros Hfig. rewrite Hfig' in Hfig. injection Hfig as <-.
  intros x y Hxy. apply Hslots in Hxy as (k & r & _ & -> & _).
  eexists. split; [reflexivity|]. unfold quarter, minute. lia.
Qed.

End Resampling.

(** When [plot_price] returns a figure, some observation was selected and
    no two selected observations share an instant. *)
Lemma plot_price_ok file d h data day area fig :
  load_df file = Ok d ->
  h !! data = Some d ->
  (plot_price day area data h).2 = Ok fig ->
  exists first last,
    earliest (selection day area file) first /\
    latest (selection day area file) last /\
    List.NoDup (map DateTime (selection day area file)).
Proof.
  intros Hload Hdata Hfig.
  rewrite (plot_price_rows file d h data day area Hload Hdata) in Hfig. cbv zeta in Hfig.
  pose proof (sorted_selection_perm day area file) as Hp.
  destruct (sorted_selection day area file) as [|x l] eqn:E; [discriminate|].
  destruct (index_min_times x l) as (t & Ht & Hmin).
  destruct (index_max_times x l) as (u & Hu & Hmax).
  exists t, u. split; [eapply earliest_perm; eassumption|].
  split; [eapply latest_perm; eassumption|].
  rewrite Ht, Hu, date_range_slots in Hfig. cbn [rbind] in Hfig.
  destruct (is_unique (map time_of (x :: l))) eqn:Eu; [|discriminate].
  apply is_unique_times in Eu.
  eapply Permutation_NoDup; [apply Permutation_map, Hp | exact Eu].
Qed.

Section Series.
Variables (file : list PriceObservation) (d : DataFrame).
Variables (h : gmap nat DataFrame) (data : loc) (day area : string).
Variables (fig : Figure) (first : Z).
Hypothesis Hload : load_df file = Ok d.
Hypothesis Hdata : h !! data = Some d.
Hypothesis Hfig : (plot_price day area data h).2 = Ok fig.
Hypothesis Hfirst : earliest (selection day area file) first.

(** C4.  In the resampled series, every slot at or after the first
    matching observation holds the price of the latest matching
    observation whose instant is not after the slot's start. *)
Theorem forward_fill_correct :
  forall x y, In (x, y) (slots fig) ->
    exists t, x = Time t /\
      (first <= t ->
       exists r, latest_before (selection day area file) t r /\ y = Num (Price r)).
Proof.
  destruct (plot_price_ok file d h data day area fig Hload Hdata Hfig)
    as (first' & last & Hfirst' & Hlast & Hnd).
  destruct (plot_price_slots file d h data day area first last Hload Hdata Hfirst Hlast Hnd)
    as (fig' & Hfig' & _ & _ & Hslots).
  rewrite Hfig' in Hfig. injection Hfig as <-.
  intros x y Hxy. apply Hslots in Hxy as (k & r & _ & -> & Hr & ->).
  eexists. split; [reflexivity|]. intros _. exists r. auto.
Qed.

(** C8.  No slot of the resampled series starts before the first
    matching observation: such slots are absent, so none of them holds
    a price; and the forward fill finds no price for an instant before
    the first observation. *)
Theorem no_back_fill :
  (forall x y, In (x, y) (slots fig) -> exists t, x = Time t /\ first <= t) /\
  (forall t y, t < first -> In (Time t, y) (slots fig) -> y = NaN) /\
  (forall t, t < first ->
     ffill (map time_of (sorted_selection day area file))
           (map price_of (sorted_selection day area file)) (Time t) = NaN).
Proof.
  destruct (plot_price_ok file d h data day area fig Hload Hdata Hfig)
    as (first' & last & Hfirst' & Hlast & Hnd).
  pose proof (slots_not_before_first file d h data day area first last
                Hload Hdata Hfirst Hlast Hnd fig Hfig) as Hge.
  split; [exact Hge|]. split.
  - intros t y Ht Hin. apply Hge in Hin as (t' & [= <-] & Hle). lia.
  - intros t Ht.
    destruct (ffill_sorted price_of _ t (sorted_selection_sorted day area file))
      as [(r & (Hr & Hrt & _) & _)|(_ & Hv)]; [|exact Hv].
    exfalso. destruct Hfirst as [_ Hle].
    specialize (Hle r (Permutation_in _ (sorted_selection_perm day area file) Hr)). lia.
Qed.

End Series.

Section Grid.
Variables (file : list PriceObservation) (d : DataFrame) (day area : string).
Variables (first last : Z).
Hypothesis Hload : load_df file = Ok d.
Hypothesis Hfirst : earliest (selection day area file) first.
Hypothesis Hlast : latest (selection day area file) last.



End Grid.

Section LastHour.
Variables (file : list PriceObservation) (d : DataFrame).
Variables (h : gmap nat DataFrame) (data : loc) (day area : string).
Variables (first last : Z).
Hypothesis Hload : load_df file = Ok d.
Hypothesis Hdata : h !! data = Some d.
Hypothesis Hfirst : earliest (selection day area file) first.
Hypothesis Hlast : latest (selection day area file) last.
Hypothesis Hnd : List.NoDup (map DateTime (selection day area file)).

End LastHour.

(** ** The table of a selection *)

Lemma append_assoc (a b c : string) : (a +:+ b) +:+ c = a +:+ b +:+ c.
Proof.
  induction a as [|x a IH]; [reflexivity|].
  change (String x ((a +:+ b) +:+ c) = String x (a +:+ b +:+ c)).
  rewrite IH. reflexivity.
Qed.

Lemma lookup_set_col_eq name c cols : lookup_col name (set_col name c cols) = Some c.
Proof.
  induction cols as [|[n c'] cols IH]; simpl.
  - rewrite String.eqb_refl. reflexivity.
  - destruct (String.eqb n name) eqn:E; simpl; rewrite E; [reflexivity | exact IH].
Qed.

Lemma lookup_set_col_ne name name' c cols :
  name <> name' -> lookup_col name' (set_col name c cols) = lookup_col name' cols.
Proof.
  intros Hne. induction cols as [|[n c'] cols IH]; simpl.
  - destruct (String.eqb_spec name name'); [contradiction | reflexivity].
  - destruct (String.eqb_spec n name) as [->|Hn]; simpl.
    + destruct (String.eqb_spec name name'); [contradiction | reflexivity].
    + rewrite IH. reflexivity.
Qed.

Lemma getitem_setitem_eq d name c : getitem (setitem d name c) name = Ok c.
Proof. unfold getitem, setitem; simpl. rewrite lookup_set_col_eq. reflexivity. Qed.

Lemma getitem_setitem_ne d name name' c :
  name <> name' -> getitem (setitem d name c) name' = getitem d name'.
Proof.
  intros Hne. unfold getitem, setitem; simpl. rewrite lookup_set_col_ne by exact Hne.
  reflexivity.
Qed.

Lemma getitem_fillna d v name :
  getitem (fillna d v) name
  = match getitem d name with
    | Ok c => Ok (map (fill_cell v) c)
    | Raise e => Raise e
    end.
Proof.
  unfold getitem, fillna; simpl.
  induction (columns d) as [|[n c] cols IH]; simpl; [reflexivity|].
  destruct (String.eqb n name); [reflexivity | exact IH].
Qed.

Lemma fill_cell_strs v (ts : list string) : map (fill_cell v) (map Str ts) = map Str ts.
Proof. rewrite map_map. reflexivity. Qed.

Lemma fill_cell_shift v (ts : list string) :
  map (fill_cell v) (shift_up (map Str ts))
  = match ts with
    | [] => []
    | _ :: rest => map Str (rest ++ [v])
    end.
Proof.
  destruct ts as [|t rest]; simpl; [reflexivity|].
  rewrite !map_app, fill_cell_strs. reflexivity.
Qed.

Lemma add_str_strs (ts : list string) v :
  add_str (map Str ts) v = Ok (map (fun t => Str (t +:+ v)) ts).
Proof.
  unfold add_str. induction ts as [|t ts IH]; simpl; [|rewrite IH]; reflexivity.
Qed.

Lemma add_series_labels sep last_ t rest :
  add_series (map (fun t => Str (t +:+ sep)) (t :: rest)) (map Str (rest ++ [last_]))
  = Ok (map Str (labels sep last_ t rest)).
Proof.
  revert t. induction rest as [|u rest IH]; intros t; [reflexivity|].
  change (add_series (map (fun t => Str (t +:+ sep)) (t :: u :: rest))
            (map Str ((u :: rest) ++ [last_])))
    with (rbind (add_series (map (fun t => Str (t +:+ sep)) (u :: rest))
                   (map Str (rest ++ [last_])))
            (fun cs => Ok (Str ((t +:+ sep) +:+ u) :: cs))).
  rewrite IH. reflexivity.
Qed.

Lemma rows_of_pairs (a b : Series) :
  length a = length b ->
  rows_of (length a) [a; b] = map (fun xy => [fst xy; snd xy]) (combine a b).
Proof.
  revert b. induction a as [|x a IH]; intros [|y b] Hlen; try discriminate; [reflexivity|].
  simpl. f_equal. apply IH. simpl in Hlen. lia.
Qed.

Lemma labels_length sep last_ t rest : length (labels sep last_ t rest) = S (length rest).
Proof. revert t. induction rest as [|u rest IH]; intros t; simpl; [|rewrite IH]; reflexivity. Qed.

Lemma mtu_rows_labels r (obs : list PriceObservation) :
  map (fun xy => [fst xy; snd xy])
      (combine (map Str (labels " - " "00:00" (strftime_HM (DateTime r))
                           (map (fun r => strftime_HM (DateTime r)) obs)))
               (map price_of (r :: obs)))
  = mtu_rows (r :: obs).
Proof.
  revert r. induction obs as [|r' obs IH]; intros r.
  - simpl. rewrite append_assoc. reflexivity.
  - change (mtu_rows (r :: r' :: obs))
      with ([Str (strftime_HM (DateTime r) +:+ " - " +:+ strftime_HM (DateTime r'));
             Num (Price r)] :: mtu_rows (r' :: obs)).
    rewrite <- (IH r'), <- append_assoc. reflexivity.
Qed.

Lemma table_of_rows (d : DataFrame) (lrs : list (nat * PriceObservation)) :
  getitem d "DateTime" = Ok (map (fun lr => Time (DateTime (snd lr))) lrs) ->
  getitem d "Day-ahead price" = Ok (map (fun lr => Num (Price (snd lr))) lrs) ->
  length (index d) = length lrs ->
  (let? date_time := getitem d "DateTime" in
   let? times := dt_strftime_HM date_time in
   let subset := setitem d "DateTime" times in
   let? date_time := getitem subset "DateTime" in
   let subset := setitem subset "temp" (shift_up date_time) in
   let subset := fillna subset "00:00" in
   let? date_time := getitem subset "DateTime" in
   let? left := add_str date_time " - " in
   let? temp := getitem subset "temp" in
   let? mtu := add_series left temp in
   let subset := setitem subset "MTU" mtu in
   let? subset := getitem_cols subset ["MTU"; "Day-ahead price"] in
   Ok (Table_from_dataframe subset))
  = Ok {| thead := ["MTU"; "Day-ahead price"]; tbody := mtu_rows (map snd lrs) |}.
Proof.
  intros Hdt Hprice Hlen. rewrite Hdt. cbn [rbind]. unfold dt_strftime_HM.
  rewrite (dt_map_times strftime_HM (fun lr => DateTime (snd lr))). cbn [rbind].
  rewrite <- (map_map (fun lr : nat * PriceObservation => strftime_HM (DateTime (snd lr))) Str).
  set (ts := map (fun lr : nat * PriceObservation => strftime_HM (DateTime (snd lr))) lrs).
  cbv zeta. rewrite getitem_setitem_eq. cbn [rbind].
  rewrite getitem_fillna, getitem_setitem_ne, getitem_setitem_eq by discriminate.
  rewrite fill_cell_strs. cbn [rbind]. rewrite add_str_strs. cbn [rbind].
  rewrite getitem_fillna, getitem_setitem_eq, fill_cell_shift. cbn [rbind].
  match goal with |- context [add_series ?a ?b] =>
  assert (Hmtu : exists mtu,
    add_series a b = Ok mtu /\
    length mtu = length lrs /\
    map (fun xy => [fst xy; snd xy])
        (combine mtu (map (fun lr : nat * PriceObservation => Num (Price (snd lr))) lrs))
    = mtu_rows (map snd lrs)) end.
  { unfold ts. destruct lrs as [|[l r] lrs']; [exists []; auto|].
    exists (map Str (labels " - " "00:00" (strftime_HM (DateTime r))
                   (map (fun lr : nat * PriceObservation => strftime_HM (DateTime (snd lr))) lrs'))).
    split; [apply add_series_labels|]. split.
    - rewrite length_map, labels_length, length_map. reflexivity.
    - change (map snd ((l, r) :: lrs')) with (r :: map snd lrs').
      rewrite <- mtu_rows_labels. cbn [map snd]. rewrite !map_map. reflexivity. }
  destruct Hmtu as (mtu & -> & Hmlen & Hrows). cbn [rbind].
  unfold getitem_cols. cbn [mapM rbind].
  rewrite getitem_setitem_eq. cbn [rbind].
  rewrite getitem_setitem_ne, getitem_fillna by discriminate.
  rewrite !getitem_setitem_ne by discriminate.
  rewrite Hprice. cbn [rbind]. unfold Table_from_dataframe. cbn [columns index map fst snd setitem fillna].
  rewrite Hlen, <- Hmlen, rows_of_pairs by (rewrite Hmlen, !length_map; reflexivity).
  do 2 f_equal. rewrite map_map. exact Hrows.
Qed.

Lemma update_table_value_rows day area file :
  update_table_value day area (df_value file)
  = Ok {| thead := ["MTU"; "Day-ahead price"];
          tbody := mtu_rows (sorted_selection day area file) |}.
Proof.
  unfold update_table_value. rewrite select_rows_of_df. cbn [rbind].
  rewrite sort_values_rows. cbn [rbind].
  set (lrs := sort_on _ _).
  change (reset_index (frame_of label_of (labelled df_schema) lrs))
    with (Ok {| index := map (fun k => Int (Z.of_nat k)) (seq 0 (length (map label_of lrs)));
                columns := ("index", map label_of lrs)
                           :: columns (frame_of label_of (labelled df_schema) lrs) |}).
  cbn [rbind]. cbv zeta.
  rewrite <- (picked_sorted_snd day area file). fold lrs.
  apply table_of_rows; [reflexivity | reflexivity |].
  cbn [index rename]. rewrite length_map, length_seq, length_map. reflexivity.
Qed.

Lemma mtu_rows_length obs : length (mtu_rows obs) = length obs.
Proof. induction obs as [|r obs IH]; simpl; [|rewrite IH]; reflexivity. Qed.

Lemma mtu_rows_nth obs i r :
  nth_error obs i = Some r ->
  nth_error (mtu_rows obs) i
  = Some [ Str (strftime_HM (DateTime r) +:+ " - " +:+
                match nth_error obs (S i) with
                | Some r' => strftime_HM (DateTime r')
                | None => "00:00"
                end);
           Num (Price r) ].
Proof.
  revert i. induction obs as [|x obs IH]; intros [|i] Hi; try discriminate.
  - injection Hi as ->. destruct obs; reflexivity.
  - apply (IH i Hi).
Qed.

Section Table.
Variables (file : list PriceObservation) (d : DataFrame).
Variables (h : gmap nat DataFrame) (data : loc) (day area : string).
Hypothesis Hload : load_df file = Ok d.
Hypothesis Hdata : h !! data = Some d.

Lemma update_table_rows :
  (update_table day area data h).2
  = Ok {| thead := ["MTU"; "Day-ahead price"];
          tbody := mtu_rows (sorted_selection day area file) |}.
Proof.
  rewrite (update_table_run day area data d h Hdata).
  rewrite load_df_ok in Hload. injection Hload as <-.
  apply update_table_value_rows.
Qed.

(** C6.  The table has one row per matching observation, in time order;
    the MTU label of each row but the last is the row's time, " - " and
    the next row's time, and the label of the last row pairs its time
    with "00:00". *)
Theorem mtu_labels :
  exists tb obs,
    (update_table day area data h).2 = Ok tb /\
    Permutation obs (selection day area file) /\
    StronglySorted by_time obs /\
    thead tb = ["MTU"; "Day-ahead price"] /\
    length (tbody tb) = length obs /\
    (forall i r r',
       nth_error obs i = Some r -> nth_error obs (S i) = Some r' ->
       nth_error (tbody tb) i
       = Some [ Str (strftime_HM (DateTime r) +:+ " - " +:+ strftime_HM (DateTime r'));
                Num (Price r) ]) /\
    (forall i r,
       nth_error obs i = Some r -> S i = length obs ->
       nth_error (tbody tb) i
       = Some [ Str (strftime_HM (DateTime r) +:+ " - " +:+ "00:00"); Num (Price r) ]).
Proof.
  eexists. exists (sorted_selection day area file).
  split; [apply update_table_rows|].
  split; [apply sorted_selection_perm|].
  split; [apply sorted_selection_sorted|].
  split; [reflexivity|]. cbn [tbody].
  split; [apply mtu_rows_length|]. split.
  - intros i r r' Hi Hi'. rewrite (mtu_rows_nth _ i r Hi), Hi'. reflexivity.
  - intros i r Hi Hlast. rewrite (mtu_rows_nth _ i r Hi).
    replace (nth_error (sorted_selection day area file) (S i)) with (@None PriceObservation);
      [reflexivity|].
    symmetry. apply nth_error_None. lia.
Qed.

(** C3 (amended).  For a selection that matches no observation the table
    path returns an empty table, the header and no row; the chart path
    returns no figure: building the grid raises, as an empty index has
    no first instant. *)
Theorem empty_selection :
  selection day area file = [] ->
  (update_table day area data h).2
    = Ok {| thead := ["MTU"; "Day-ahead price"]; tbody := [] |} /\
  (plot_price day area data h).2
    = Raise (ValueError "Neither `start` nor `end` can be NaT").
Proof.
  intros Hsel. split.
  - rewrite update_table_rows. unfold sorted_selection. rewrite Hsel. reflexivity.
  - apply (plot_price_empty file d h data day area Hload Hdata Hsel).
Qed.
End Table.

(** ** The global dataframe is left alone *)

(** C9.  Whatever the day and the area, neither [plot_price] nor
    [update_table] changes the dataframe behind [df], nor any other
    object that was there before the call: all they change are the
    copies they make. *)
Theorem queries_leave_df_unchanged (h : gmap nat DataFrame) (data : loc) (d : DataFrame)
    (day area : string) :
  h !! data = Some d ->
  let h1 := (plot_price day area data h).1 in
  let h2 := (update_table day area data h1).1 in
  unchanged h h1 /\ unchanged h1 h2 /\
  h1 !! data = Some d /\ h2 !! data = Some d /\
  (update_table day area data h).1 !! data = Some d.
Proof.
  intros Hd h1 h2.
  pose proof (wp_elim _ _ _ (plot_price_wp day area data d h Hd)) as [Hu1 _].
  fold h1 in Hu1. pose proof (Hu1 _ _ Hd) as Hd1.
  pose proof (wp_elim _ _ _ (update_table_wp day area data d h1 Hd1)) as [Hu2 _].
  fold h2 in Hu2.
  pose proof (wp_elim _ _ _ (update_table_wp day area data d h Hd)) as [Hu3 _].
  repeat split; auto.
Qed.

(** ** Series that are already on the grid *)





Section OnTheGrid.
Variables (file : list PriceObservation) (d : DataFrame).
Variables (h : gmap nat DataFrame) (data : loc) (day area : string).
Variables (t0 : Z) (r_last : PriceObservation).
Hypothesis Hload : load_df file = Ok d.
Hypothesis Hdata : h !! data = Some d.
Hypothesis Htimes :
  map DateTime (selection day area file)
  = map (fun k => t0 + Z.of_nat k * quarter) (seq 0 96).
Hypothesis Hr_last : nth_error (selection day area file) 95 = Some r_last.



End OnTheGrid.

(** ** A single observation *)

(** C7 (amended).  For day "2023-01-15" and area "NO3", with exactly one
    matching observation, at 00:00 of that day and of price 50.2, the
    resampled output has four slots, 00:00, 00:15, 00:30 and 00:45, and
    the price of every slot is 50.2. *)
Theorem single_observation_four_slots (file : list PriceObservation) (d : DataFrame)
    (h : gmap nat DataFrame) (data : loc) (r : PriceObservation) :
  load_df file = Ok d ->
  h !! data = Some d ->
  selection "2023-01-15" "NO3" file = [r] ->
  DateTime r = jan2023 14 0 0 ->
  Price r = 50.2%Q ->
  exists fig,
    (plot_price "2023-01-15" "NO3" data h).2 = Ok fig /\
    slots fig = [ (Time (jan2023 14 0 0), Num 50.2%Q);
                  (Time (jan2023 14 0 15), Num 50.2%Q);
                  (Time (jan2023 14 0 30), Num 50.2%Q);
                  (Time (jan2023 14 0 45), Num 50.2%Q) ].
Proof.
  intros Hload Hdata Hsel Ht Hp.
  assert (Hfirst : earliest (selection "2023-01-15" "NO3" file) (jan2023 14 0 0)).
  { rewrite Hsel. split; [left; exact Ht|]. intros r' [<-|[]]. lia. }
  assert (Hlast : latest (selection "2023-01-15" "NO3" file) (jan2023 14 0 0)).
  { rewrite Hsel. split; [left; exact Ht|]. intros r' [<-|[]]. lia. }
  assert (Hnd : List.NoDup (map DateTime (selection "2023-01-15" "NO3" file))).
  { rewrite Hsel. repeat constructor. intros []. }
  eexists. split.
  { apply (plot_price_returns file d h data _ _ Hload Hdata _ _ Hfirst Hlast Hnd). }
  cbv zeta. rewrite slots_figure_of. unfold sorted_selection. rewrite Hsel.
  cbn [sort_on insert_on map]. unfold time_of, price_of. rewrite Ht, Hp.
  vm_compute. reflexivity.
Qed.

(** ** The theorems at sample inputs *)

(** Bounds and distinctness of the instants of a given list. *)
Ltac in_cases H :=
  repeat (destruct H as [H|H]; [try (rewrite <- H; vm_compute; discriminate);
                                try (vm_compute in H; discriminate)|]);
  try destruct H.

Ltac solve_bound :=
  split; [vm_compute; solve [repeat first [left; reflexivity | right]]
         | let r := fresh "r" in let Hr := fresh "Hr" in
           intros r Hr; vm_compute in Hr; in_cases Hr].

Ltac solve_distinct := apply is_unique_times; vm_compute; reflexivity.

Ltac solve_loaded := vm_compute; reflexivity.

Example date_str_jan15 : date_str (jan2023 14 0 0) = "2023-01-15".
Proof. reflexivity. Qed.

Example date_str_jan31 : date_str (jan2023 30 23 45) = "2023-01-31".
Proof. reflexivity. Qed.

Example date_str_leap_day : date_str (19782 * day_ns + 13 * hour) = "2024-02-29".
Proof. reflexivity. Qed.

Example date_str_epoch : date_str 0 = "1970-01-01".
Proof. reflexivity. Qed.

Example strftime_HM_morning : strftime_HM (jan2023 14 9 5) = "09:05".
Proof. reflexivity. Qed.

Example hourly_day_selected :
  length (selection "2023-01-15" "NO3" hourly_day) = 24%nat.
Proof. reflexivity. Qed.

(** The hourly day fills the 96 quarter hours of the day. *)
Example hourly_day_chart :
  (plot_price "2023-01-15" "NO3" df (heap_of hourly_day)).2 = Ok hourly_figure
  /\ fig_x hourly_figure = day_grid (jan2023 14 0 0).
Proof. split; vm_compute; reflexivity. Qed.

Example late_observation_chart :
  (plot_price "2023-01-15" "NO3" df (heap_of late_observation)).2 = Ok late_figure.
Proof. vm_compute. reflexivity. Qed.

(** Two lines for one zone at one instant: no chart. *)
Example duplicate_instant_chart :
  (plot_price "2023-01-15" "NO3" df
     (heap_of (observation "NO3" (jan2023 14 0 0) (1 # 1) :: single_observation))).2
  = Raise (ValueError "cannot reindex on an axis with duplicate labels").
Proof. vm_compute. reflexivity. Qed.

(** A zone the program does not load selects nothing. *)
Example foreign_zone_table :
  (update_table "2023-01-15" "DE_LU" df (heap_of single_observation)).2
  = Ok {| thead := ["MTU"; "Day-ahead price"]; tbody := [] |}.
Proof. vm_compute. reflexivity. Qed.

Example unsorted_lines_table :
  (update_table "2023-01-15" "NO3" df
     (heap_of [ observation "NO3" (jan2023 14 4 0) (502 # 10);
                observation "NO1" (jan2023 14 3 0) (1 # 1);
                observation "NO3" (jan2023 14 0 0) (7 # 10);
                observation "NO3" (jan2023 14 23 0) (9 # 10) ])).2
  = Ok {| thead := ["MTU"; "Day-ahead price"];
          tbody := [ [Str "00:00 - 04:00"; Num (7 # 10)];
                     [Str "04:00 - 23:00"; Num (502 # 10)];
                     [Str "23:00 - 00:00"; Num (9 # 10)] ] |}.
Proof. vm_compute. reflexivity. Qed.



Lemma forward_fill_correct_witness :
  (plot_price "2023-01-15" "NO3" df (heap_of hourly_day)).2 = Ok hourly_figure /\
  forall x y, In (x, y) (slots hourly_figure) ->
    exists t, x = Time t /\
      (jan2023 14 0 0 <= t ->
       exists r, latest_before (selection "2023-01-15" "NO3" hourly_day) t r /\
                 y = Num (Price r)).
Proof.
  split; [solve_loaded|].
  apply (forward_fill_correct hourly_day (df_value hourly_day)
           (heap_of hourly_day) df "2023-01-15" "NO3");
    [solve_loaded | solve_loaded | solve_loaded | solve_bound].
Defined.

Lemma no_back_fill_witness :
  (forall x y, In (x, y) (slots late_figure) ->
     exists t, x = Time t /\ jan2023 14 10 0 <= t) /\
  (forall t y, t < jan2023 14 10 0 -> In (Time t, y) (slots late_figure) -> y = NaN) /\
  (forall t, t < jan2023 14 10 0 ->
     ffill (map time_of (sorted_selection "2023-01-15" "NO3" late_observation))
           (map price_of (sorted_selection "2023-01-15" "NO3" late_observation))
           (Time t) = NaN).
Proof.
  apply (no_back_fill late_observation (df_value late_observation)
           (heap_of late_observation) df "2023-01-15" "NO3");
    [solve_loaded | solve_loaded | solve_loaded | solve_bound].
Defined.


Lemma mtu_labels_witness :
  exists tb obs,
    (update_table "2023-01-15" "NO3" df (heap_of hourly_day)).2 = Ok tb /\
    Permutation obs (selection "2023-01-15" "NO3" hourly_day) /\
    StronglySorted by_time obs /\
    thead tb = ["MTU"; "Day-ahead price"] /\
    length (tbody tb) = length obs /\
    (forall i r r',
       nth_error obs i = Some r -> nth_error obs (S i) = Some r' ->
       nth_error (tbody tb) i
       = Some [ Str (strftime_HM (DateTime r) +:+ " - " +:+ strftime_HM (DateTime r'));
                Num (Price r) ]) /\
    (forall i r,
       nth_error obs i = Some r -> S i = length obs ->
       nth_error (tbody tb) i
       = Some [ Str (strftime_HM (DateTime r) +:+ " - " +:+ "00:00"); Num (Price r) ]).
Proof.
  apply (mtu_labels hourly_day (df_value hourly_day) (heap_of hourly_day) df
           "2023-01-15" "NO3"); [solve_loaded | solve_loaded].
Defined.

Lemma empty_selection_witness :
  (update_table "2023-01-20" "NO3" df (heap_of single_observation)).2
    = Ok {| thead := ["MTU"; "Day-ahead price"]; tbody := [] |} /\
  (plot_price "2023-01-20" "NO3" df (heap_of single_observation)).2
    = Raise (ValueError "Neither `start` nor `end` can be NaT").
Proof.
  apply (empty_selection single_observation (df_value single_observation)
           (heap_of single_observation) df "2023-01-20" "NO3");
    [solve_loaded | solve_loaded | reflexivity].
Defined.

Lemma queries_leave_df_unchanged_witness :
  unchanged (heap_of hourly_day)
    (plot_price "2023-01-15" "NO3" df (heap_of hourly_day)).1 /\
  unchanged (plot_price "2023-01-15" "NO3" df (heap_of hourly_day)).1
    (update_table "2023-01-15" "NO3" df
       (plot_price "2023-01-15" "NO3" df (heap_of hourly_day)).1).1 /\
  (plot_price "2023-01-15" "NO3" df (heap_of hourly_day)).1 !! df
    = Some (df_value hourly_day) /\
  (update_table "2023-01-15" "NO3" df
     (plot_price "2023-01-15" "NO3" df (heap_of hourly_day)).1).1 !! df
    = Some (df_value hourly_day) /\
  (update_table "2023-01-15" "NO3" df (heap_of hourly_day)).1 !! df
    = Some (df_value hourly_day).
Proof.
  apply (queries_leave_df_unchanged (heap_of hourly_day) df (df_value hourly_day)
           "2023-01-15" "NO3"); solve_loaded.
Defined.


Lemma single_observation_four_slots_witness :
  exists fig,
    (plot_price "2023-01-15" "NO3" df (heap_of single_observation)).2 = Ok fig /\
    slots fig = [ (Time (jan2023 14 0 0), Num 50.2%Q);
                  (Time (jan2023 14 0 15), Num 50.2%Q);
                  (Time (jan2023 14 0 30), Num 50.2%Q);
                  (Time (jan2023 14 0 45), Num 50.2%Q) ].
Proof.
  apply (single_observation_four_slots single_observation (df_value single_observation)
           (heap_of single_observation) df
           (observation "NO3" (jan2023 14 0 0) (502 # 10)));
    [solve_loaded | solve_loaded | reflexivity | reflexivity | reflexivity].
Defined.

(** ** Where the specification and the program part *)



(** Against C3: for a day without observations the chart path raises; it
    does not return an empty series. *)
Lemma plot_price_raises_on_empty_selection :
  selection "2023-01-20" "NO3" single_observation = [] /\
  (plot_price "2023-01-20" "NO3" df (heap_of single_observation)).2
    = Raise (ValueError "Neither `start` nor `end` can be NaT") /\
  ~ exists fig,
      (plot_price "2023-01-20" "NO3" df (heap_of single_observation)).2 = Ok fig.
Proof.
  split; [reflexivity|]. split; [vm_compute; reflexivity|].
  intros [fig Hfig]. vm_compute in Hfig. discriminate.
Qed.


(** Against C7: the single observation at 00:00 gives 4 slots, not 96. *)
Lemma single_observation_not_96 :
  selection "2023-01-15" "NO3" single_observation
    = [observation "NO3" (jan2023 14 0 0) 50.2%Q] /\
  exists fig,
    (plot_price "2023-01-15" "NO3" df (heap_of single_observation)).2 = Ok fig /\
    length (slots fig) = 4%nat /\
    length (slots fig) <> 96%nat.
Proof.
  split; [reflexivity|]. eexists. split; [vm_compute; reflexivity|].
  split; [reflexivity | vm_compute; discriminate].
Qed.


(** * Further properties of the program *)

(** ** Missing columns *)

Lemma lookup_col_map_rows f name d :
  lookup_col name (columns (map_rows f d))
  = match lookup_col name (columns d) with Some c => Some (f c) | None => None end.
Proof.
  unfold map_rows; cbn [columns].
  induction (columns d) as [|[n c] cols IH]; simpl; [reflexivity|].
  destruct (String.eqb n name); [reflexivity | exact IH].
Qed.

(** X1.  On a dataframe without the column [MapCode] both queries raise
    [KeyError] for it; with [MapCode] but without [Day] they raise
    [KeyError] for [Day]; with both but without [DateTime] they raise
    [KeyError] for [DateTime], whatever the day and the area. *)
Theorem missing_column_raises (h : gmap nat DataFrame) (data : loc) (d : DataFrame)
    (day area : string) :
  h !! data = Some d ->
  (lookup_col "MapCode" (columns d) = None ->
   (plot_price day area data h).2 = Raise (KeyError "MapCode") /\
   (update_table day area data h).2 = Raise (KeyError "MapCode")) /\
  (lookup_col "MapCode" (columns d) <> None ->
   lookup_col "Day" (columns d) = None ->
   (plot_price day area data h).2 = Raise (KeyError "Day") /\
   (update_table day area data h).2 = Raise (KeyError "Day")) /\
  (lookup_col "MapCode" (columns d) <> None ->
   lookup_col "Day" (columns d) <> None ->
   lookup_col "DateTime" (columns d) = None ->
   (plot_price day area data h).2 = Raise (KeyError "DateTime") /\
   (update_table day area data h).2 = Raise (KeyError "DateTime")).
Proof.
  intros Hd.
  rewrite (plot_price_run day area data d h Hd), (update_table_run day area data d h Hd).
  unfold plot_price_value, update_table_value, select, getitem.
  split; [|split].
  - intros ->. split; reflexivity.
  - intros Hm ->. destruct (lookup_col "MapCode" (columns d)); [|contradiction].
    split; reflexivity.
  - intros Hm Hday Hdt.
    destruct (lookup_col "MapCode" (columns d)) as [mc|]; [|contradiction].
    destruct (lookup_col "Day" (columns d)) as [dc|]; [|contradiction].
    cbn [rbind]. unfold sort_values, getitem, getitem_mask.
    rewrite lookup_col_map_rows, Hdt. split; reflexivity.
Qed.

(** ** Queries do not interfere *)

(** X2.  The outcome of a callback does not depend on the callbacks that
    ran before it: after [update_plot] or the table callback, for any day
    and area, each of them returns what it returns on the heap as the
    module left it; so the order in which the two run does not matter. *)
Theorem callbacks_independent (h : gmap nat DataFrame) (d : DataFrame)
    (day area day' area' : string) :
  h !! df = Some d ->
  (update_plot day area (update_table_callback day' area' h).1).2
    = (update_plot day area h).2 /\
  (update_plot day area (update_plot day' area' h).1).2
    = (update_plot day area h).2 /\
  (update_table_callback day area (update_plot day' area' h).1).2
    = (update_table_callback day area h).2 /\
  (update_table_callback day area (update_table_callback day' area' h).1).2
    = (update_table_callback day area h).2.
Proof.
  intros Hd. unfold update_plot, update_table_callback.
  pose proof (wp_elim _ _ _ (plot_price_wp day' area' df d h Hd)) as [Hp _].
  pose proof (wp_elim _ _ _ (update_table_wp day' area' df d h Hd)) as [Ht _].
  pose proof (Hp _ _ Hd) as Hdp. pose proof (Ht _ _ Hd) as Hdt.
  rewrite !(plot_price_run day area df d) by assumption.
  rewrite !(update_table_run day area df d) by assumption.
  repeat split.
Qed.

(** ** When there is a chart *)

Lemma nonempty_bounds (sel : list PriceObservation) :
  sel <> [] -> exists first last, earliest sel first /\ latest sel last.
Proof.
  destruct sel as [|x l]; [contradiction|]. intros _.
  destruct (index_min_times x l) as (t & _ & Ht).
  destruct (index_max_times x l) as (u & _ & Hu). eauto.
Qed.

Lemma distinct_dec (sel : list PriceObservation) :
  {List.NoDup (map DateTime sel)} + {~ List.NoDup (map DateTime sel)}.
Proof.
  destruct (is_unique (map time_of sel)) eqn:E.
  - left. apply is_unique_times, E.
  - right. intros H. apply is_unique_times in H. congruence.
Qed.

Section Outcome.
Variables (file : list PriceObservation) (d : DataFrame).
Variables (h : gmap nat DataFrame) (data : loc) (day area : string).
Hypothesis Hload : load_df file = Ok d.
Hypothesis Hdata : h !! data = Some d.


Lemma slots_in_range (fig : Figure) (first last : Z) :
  (plot_price day area data h).2 = Ok fig ->
  earliest (selection day area file) first ->
  latest (selection day area file) last ->
  forall x y, In (x, y) (slots fig) ->
    exists t, x = Time t /\ first <= t <= last + Timedelta 59.
Proof.
  intros Hfig Hfirst Hlast.
  destruct (plot_price_ok file d h data day area fig Hload Hdata Hfig)
    as (first' & last' & _ & _ & Hnd).
  destruct (plot_price_slots file d h data day area first last Hload Hdata Hfirst Hlast Hnd)
    as (fig' & Hfig' & _ & _ & Hslots).
  rewrite Hfig' in Hfig. injection Hfig as <-.
  pose proof (earliest_le_latest _ _ _ Hfirst Hlast) as Hle.
  destruct (slot_count_last first last Hle) as (n & Hn & _ & Hend).
  intros x y Hxy. apply Hslots in Hxy as (k & r & Hk & -> & _).
  eexists. split; [reflexivity|].
  assert (Z.of_nat k <= Z.of_nat n) by lia.
  unfold quarter, Timedelta, minute in *. lia.
Qed.

(** X4.  When [plot_price] returns a figure, every slot starts between
    the first matching observation and 59 minutes after the last, and
    every matching observation whose instant lies on the grid (a multiple
    of 15 minutes after the first) is a slot of the chart, with its own
    price: the chart shows what the table lists. *)
Theorem chart_shows_observations (fig : Figure) (first last : Z) :
  (plot_price day area data h).2 = Ok fig ->
  earliest (selection day area file) first ->
  latest (selection day area file) last ->
  (forall x y, In (x, y) (slots fig) ->
     exists t, x = Time t /\ first <= t <= last + Timedelta 59) /\
  (forall r, In r (selection day area file) ->
     (DateTime r - first) mod quarter = 0 ->
     In (Time (DateTime r), Num (Price r)) (slots fig)).
Proof.
  intros Hfig Hfirst Hlast.
  split; [apply slots_in_range; assumption|].
  destruct (plot_price_ok file d h data day area fig Hload Hdata Hfig)
    as (first' & last' & _ & _ & Hnd).
  destruct (plot_price_slots file d h data day area first last Hload Hdata Hfirst Hlast Hnd)
    as (fig' & Hfig' & _ & _ & Hslots).
  rewrite Hfig' in Hfig. injection Hfig as <-.
  pose proof (earliest_le_latest _ _ _ Hfirst Hlast) as Hle.
  destruct (slot_count_last first last Hle) as (n & Hn & _ & Hend).
  intros r Hr Hal.
  assert (Hm : DateTime r - first = (DateTime r - first) / quarter * quarter).
  { pose proof (Z.div_mod (DateTime r - first) quarter).
    unfold quarter, minute in *. lia. }
  set (m := (DateTime r - first) / quarter) in *.
  destruct Hfirst as [_ Hlo]. destruct Hlast as [_ Hhi].
  specialize (Hlo r Hr). specialize (Hhi r Hr).
  assert (0 <= m <= Z.of_nat n) by (unfold quarter, Timedelta, minute in *; lia).
  apply Hslots. exists (Z.to_nat m), r.
  rewrite Z2Nat.id by lia.
  replace (first + m * quarter) with (DateTime r) by lia.
  repeat split; auto; lia.
Qed.

(** X5.  When the last matching observation is at most 23 h 00 min after
    the midnight before the first one, no slot of the chart leaves the
    selected day: the date of every slot is [day]. *)
Theorem chart_stays_on_day (fig : Figure) (first last : Z) :
  (plot_price day area data h).2 = Ok fig ->
  earliest (selection day area file) first ->
  latest (selection day area file) last ->
  last <= day_start first + 23 * hour ->
  forall x y, In (x, y) (slots fig) -> exists t, x = Time t /\ date_str t = day.
Proof.
  intros Hfig Hfirst Hlast Hlate x y Hxy.
  destruct (slots_in_range fig first last Hfig Hfirst Hlast x y Hxy) as (t & -> & Ht).
  exists t. split; [reflexivity|].
  destruct Hfirst as [Hin _]. apply in_map_iff in Hin as (r & Hrt & Hr).
  unfold selection in Hr. apply filter_In in Hr as [_ Hm].
  unfold matches in Hm. apply andb_true_iff in Hm as [_ Hday].
  apply String.eqb_eq in Hday. rewrite Hrt in Hday. rewrite <- Hday.
  assert (Hq : t / day_ns = first / day_ns).
  { unfold day_start, day_ns, hour, Timedelta, minute in *.
    pose proof (Z.div_mod first (24 * (60 * 60000000000))).
    pose proof (Z.mod_pos_bound first (24 * (60 * 60000000000))).
    symmetry. apply (Z.div_unique_pos t _ _ (t - first / (24 * (60 * 60000000000)) * (24 * (60 * 60000000000)))); lia. }
  unfold date_str. rewrite Hq. reflexivity.
Qed.
End Outcome.

(** ** The order of the lines *)

(** Two sorted arrangements of the same observations, at distinct
    instants, are the same list. *)
Lemma sorted_perm_eq (l l' : list PriceObservation) :
  StronglySorted by_time l -> StronglySorted by_time l' ->
  Permutation l l' -> List.NoDup (map DateTime l) -> l = l'.
Proof.
  intros Hs. revert l'. induction Hs as [|x l Hl IH Hx]; intros l' Hs' Hp Hnd.
  - apply Permutation_nil in Hp. congruence.
  - destruct Hs' as [|y l' Hl' Hy].
    { apply Permutation_sym, Permutation_nil in Hp. discriminate. }
    rewrite List.Forall_forall in Hx, Hy. unfold by_time in Hx, Hy.
    assert (Hxy : x = y).
    { assert (Hyin : In y (x :: l))
        by (eapply Permutation_in; [symmetry; exact Hp | left; reflexivity]).
      assert (Hxin : In x (y :: l'))
        by (eapply Permutation_in; [exact Hp | left; reflexivity]).
      apply (same_time_same_obs (x :: l)); [exact Hnd | left; reflexivity | exact Hyin |].
      assert (Hle1 : DateTime x <= DateTime y)
        by (destruct Hyin as [<-|Hin1]; [lia | apply Hx, Hin1]).
      assert (Hle2 : DateTime y <= DateTime x)
        by (destruct Hxin as [<-|Hin2]; [lia | apply Hy, Hin2]).
      lia. }
    subst y. f_equal. apply IH; [exact Hl' | eapply Permutation_cons_inv; exact Hp|].
    simpl in Hnd. apply List.NoDup_cons_iff in Hnd. apply Hnd.
Qed.

(** X6.  The chart depends on the matching observations only, not on the
    order of the lines of the file nor on the lines for other areas and
    days: two files whose selections hold the same observations give the
    same outcome of [plot_price], figure or error. *)
Theorem chart_ignores_line_order (file file' : list PriceObservation) (d d' : DataFrame)
    (h h' : gmap nat DataFrame) (data data' : loc) (day area : string) :
  load_df file = Ok d -> h !! data = Some d ->
  load_df file' = Ok d' -> h' !! data' = Some d' ->
  Permutation (selection day area file) (selection day area file') ->
  (plot_price day area data h).2 = (plot_price day area data' h').2.
Proof.
  intros Hload Hdata Hload' Hdata' Hp.
  destruct (selection day area file) as [|x l] eqn:E.
  - apply Permutation_nil in Hp.
    rewrite (plot_price_empty file d h data day area Hload Hdata E).
    rewrite (plot_price_empty file' d' h' data' day area Hload' Hdata' Hp). reflexivity.
  - assert (Hne : selection day area file <> []) by (rewrite E; discriminate).
    assert (Hne' : selection day area file' <> []).
    { intros Hnil. rewrite Hnil in Hp. apply Permutation_sym, Permutation_nil in Hp.
      discriminate. }
    rewrite <- E in Hp.
    destruct (distinct_dec (selection day area file)) as [Hnd|Hdup].
    + assert (Hnd' : List.NoDup (map DateTime (selection day area file')))
        by (eapply Permutation_NoDup; [apply Permutation_map, Hp | exact Hnd]).
      destruct (nonempty_bounds _ Hne) as (first & last & Hf & Hl).
      rewrite (plot_price_returns file d h data day area Hload Hdata first last Hf Hl Hnd).
      rewrite (plot_price_returns file' d' h' data' day area Hload' Hdata' first last
                 (earliest_perm _ _ _ Hp Hf) (latest_perm _ _ _ Hp Hl) Hnd').
      cbv zeta.
      rewrite (sorted_perm_eq (sorted_selection day area file) (sorted_selection day area file')).
      * reflexivity.
      * apply sorted_selection_sorted.
      * apply sorted_selection_sorted.
      * rewrite (sorted_selection_perm day area file), Hp.
        symmetry. apply sorted_selection_perm.
      * eapply Permutation_NoDup; [|exact Hnd].
        apply Permutation_map. symmetry. apply sorted_selection_perm.
    + assert (Hdup' : ~ List.NoDup (map DateTime (selection day area file'))).
      { intros H. apply Hdup. eapply Permutation_NoDup; [|exact H].
        apply Permutation_map. symmetry. exact Hp. }
      rewrite (plot_price_duplicates file d h data day area Hload Hdata Hne Hdup).
      rewrite (plot_price_duplicates file' d' h' data' day area Hload' Hdata' Hne' Hdup').
      reflexivity.
Qed.

(** ** What the module loads *)

Lemma in_combine_seq {R : Type} (l : list R) (a i : nat) (r : R) :
  In (i, r) (combine (seq a (length l)) l) <->
  (a <= i)%nat /\ nth_error l (i - a) = Some r.
Proof.
  revert a. induction l as [|x l IH]; intros a; simpl.
  - split; [intros [] | intros [_ H]]. destruct (i - a)%nat; discriminate.
  - rewrite IH. split.
    + intros [[= <- <-]|[Hle Hn]].
      * split; [lia|]. rewrite Nat.sub_diag. reflexivity.
      * split; [lia|]. replace (i - a)%nat with (S (i - S a)) by lia. exact Hn.
    + intros [Hle Hn]. destruct (i - a)%nat as [|k] eqn:E.
      * left. injection Hn as ->. f_equal. lia.
      * right. split; [lia|]. replace (i - S a)%nat with k by lia. exact Hn.
Qed.

Lemma in_enumerate {R : Type} (l : list R) (i : nat) (r : R) :
  In (i, r) (enumerate l) <-> nth_error l i = Some r.
Proof.
  unfold enumerate. rewrite in_combine_seq, Nat.sub_0_r. split; [intros [_ H]; exact H|].
  intros H. split; [lia | exact H].
Qed.

Lemma combine_seq_sorted {R : Type} (l : list R) (a : nat) :
  StronglySorted (fun x y : nat * R => (fst x < fst y)%nat) (combine (seq a (length l)) l).
Proof.
  revert a. induction l as [|x l IH]; intros a; simpl; constructor; [apply IH|].
  rewrite List.Forall_forall. intros [i r] Hin. apply in_combine_seq in Hin. simpl. lia.
Qed.

Lemma filter_sorted {R : Type} (lt_ : R -> R -> Prop) (p : R -> bool) (l : list R) :
  StronglySorted lt_ l -> StronglySorted lt_ (List.filter p l).
Proof.
  induction 1 as [|x l Hl IH Hx]; simpl; [constructor|].
  destruct (p x); [|exact IH]. constructor; [exact IH|].
  rewrite List.Forall_forall in *. intros y Hy. apply filter_In in Hy. apply Hx, Hy.
Qed.

Lemma in_zone_iff r : in_zone r = true <-> In (MapCode r) norwegian_zones.
Proof.
  unfold in_zone. rewrite existsb_exists. split.
  - intros (z & Hz & He). apply String.eqb_eq in He. subst z. exact Hz.
  - intros H. exists (MapCode r). split; [exact H | apply String.eqb_refl].
Qed.

Lemma year_of_era_bounds doe :
  0 <= doe <= 146096 ->
  let yoe := (doe - doe / 1460 + doe / 36524 - doe / 146096) / 365 in
  0 <= yoe <= 399 /\ 0 <= doe - (365 * yoe + yoe / 4 - yoe / 100) <= 365.
Proof.
  intros H yoe. subst yoe.
  assert (Hc : doe / 36524 = 0 \/ doe / 36524 = 1 \/ doe / 36524 = 2 \/
               doe / 36524 = 3 \/ doe / 36524 = 4)
    by (Z.to_euclidean_division_equations; lia).
  assert (Hd : doe / 146096 = 0 \/ doe = 146096)
    by (Z.to_euclidean_division_equations; lia).
  destruct Hd as [Hd | ->]; [|vm_compute; repeat split; discriminate].
  rewrite Hd.
  destruct Hc as [Hc|[Hc|[Hc|[Hc|Hc]]]]; rewrite Hc;
    Z.to_euclidean_division_equations; lia.
Qed.

Lemma civil_bounds (n : Z) :
  -106752 <= n <= 106751 ->
  let z := n + 719468 in
  let era := z / 146097 in
  let doe := z - era * 146097 in
  let yoe := (doe - doe / 1460 + doe / 36524 - doe / 146096) / 365 in
  let doy := doe - (365 * yoe + yoe / 4 - yoe / 100) in
  let mp := (5 * doy + 2) / 153 in
  let d := doy - (153 * mp + 2) / 5 + 1 in
  let m := if mp <? 10 then mp + 3 else mp - 9 in
  let y := yoe + era * 400 + (if m <=? 2 then 1 else 0) in
  1677 <= y <= 2262 /\ 1 <= m <= 12 /\ 1 <= d <= 31.
Proof.
  intros Hn z era doe yoe doy mp d m y.
  assert (Hera : era = 4 /\ 28328 <= doe <= 146096 \/ era = 5 /\ 0 <= doe <= 95734).
  { subst doe era z. Z.to_euclidean_division_equations; lia. }
  assert (Hdoe : 0 <= doe <= 146096) by lia.
  destruct (year_of_era_bounds doe Hdoe) as [Hyoe Hdoy].
  fold yoe in Hyoe, Hdoy. fold doy in Hdoy.
  assert (Hyear : era = 4 /\ 77 <= yoe \/ era = 5 /\ (yoe < 262 \/ yoe = 262 /\ doy <= 41)).
  { subst doy. subst yoe. clearbody doe. clear Hdoe.
    destruct Hera as [[-> Hera] | [-> Hera]]; [left | right]; (split; [reflexivity|]).
    - Z.to_euclidean_division_equations; lia.
    - assert (Hc : doe / 36524 = 0 \/ doe / 36524 = 1 \/ doe / 36524 = 2)
        by (Z.to_euclidean_division_equations; lia).
      assert (Hd : doe / 146096 = 0) by (Z.to_euclidean_division_equations; lia).
      rewrite Hd in *. destruct Hc as [Hc|[Hc|Hc]]; rewrite Hc in *;
      Z.to_euclidean_division_equations; lia. }
  clearbody doy yoe era.
  assert (Hmp : 0 <= mp <= 11) by (subst mp; Z.to_euclidean_division_equations; lia).
  assert (Hd : 1 <= d <= 31) by (subst d mp; Z.to_euclidean_division_equations; lia).
  assert (Hm : 1 <= m <= 12) by (subst m; destruct (Z.ltb_spec mp 10); lia).
  assert (Hlate : doy <= 41 -> 3 <= m).
  { intros Hle. subst m. destruct (Z.ltb_spec mp 10); [lia|].
    subst mp. Z.to_euclidean_division_equations; lia. }
  split; [|split; assumption].
  subst y. clearbody m. destruct (Z.leb_spec m 2); lia.
Qed.

Lemma date_str_civil t :
  Timestamp_min <= t <= Timestamp_max ->
  exists y m dd,
    1677 <= y <= 2262 /\ 1 <= m <= 12 /\ 1 <= dd <= 31 /\
    date_str t = pad4 y +:+ "-" +:+ pad2 m +:+ "-" +:+ pad2 dd.
Proof.
  intros Ht.
  assert (Hn : -106752 <= t / day_ns <= 106751).
  { unfold Timestamp_min, Timestamp_max, day_ns, hour, minute in *.
    Z.to_euclidean_division_equations; lia. }
  destruct (civil_bounds (t / day_ns) Hn) as (Hy & Hm & Hd).
  eexists _, _, _. split; [exact Hy|]. split; [exact Hm|]. split; [exact Hd|].
  reflexivity.
Qed.

(** X7.  When loading succeeds on a file whose instants are ones
    [datetime64[ns]] holds, [df] keeps exactly the lines of the file
    whose [MapCode] is one of NO1 to NO5, in file order and under their
    line numbers as labels (they are not renumbered); it has the nine
    columns of the file and [Day]; its [Day] column holds, row by row,
    the date of the [DateTime] column, a date with a year from 1677 to
    2262. *)
Theorem load_df_keeps_zone_lines (file : list PriceObservation) (d : DataFrame) :
  load_df file = Ok d ->
  List.Forall (fun r => Timestamp_min <= DateTime r <= Timestamp_max) file ->
  exists kept,
    (forall i r, In (i, r) kept <->
       nth_error file i = Some r /\ In (MapCode r) norwegian_zones) /\
    StronglySorted (fun x y : nat * PriceObservation => (fst x < fst y)%nat) kept /\
    index d = map (fun lr => Int (Z.of_nat (fst lr))) kept /\
    map fst (columns d)
      = [ "DateTime"; "ResolutionCode"; "AreaCode"; "AreaTypeCode"; "AreaName";
          "MapCode"; "Price"; "Currency"; "UpdateTime"; "Day" ] /\
    getitem d "DateTime" = Ok (map (fun lr => Time (DateTime (snd lr))) kept) /\
    getitem d "MapCode" = Ok (map (fun lr => Str (MapCode (snd lr))) kept) /\
    getitem d "Price" = Ok (map (fun lr => Num (Price (snd lr))) kept) /\
    getitem d "Day" = Ok (map (fun lr => Str (date_str (DateTime (snd lr)))) kept) /\
    (forall lr, In lr kept ->
       exists y m dd,
         1677 <= y <= 2262 /\ 1 <= m <= 12 /\ 1 <= dd <= 31 /\
         date_str (DateTime (snd lr))
         = pad4 y +:+ "-" +:+ pad2 m +:+ "-" +:+ pad2 dd).
Proof.
  intros Hload Hbounds. rewrite load_df_ok in Hload. injection Hload as <-.
  exists (df_rows file). split.
  { intros i r. unfold df_rows. rewrite filter_In, in_enumerate. simpl.
    rewrite in_zone_iff. reflexivity. }
  split; [apply filter_sorted, combine_seq_sorted|].
  do 6 (split; [reflexivity|]).
  intros [i r] Hin. apply date_str_civil.
  unfold df_rows in Hin. apply filter_In in Hin as [Hin _].
  apply in_enumerate in Hin. apply nth_error_In in Hin.
  rewrite List.Forall_forall in Hbounds. apply (Hbounds r Hin).
Qed.

(** ** The pickers *)

Lemma date_str_of_day t : date_str (t / day_ns * day_ns) = date_str t.
Proof.
  unfold date_str. rewrite Z.div_mul by (unfold day_ns, hour, minute; lia). reflexivity.
Qed.

(** X8.  The bounds of the date picker are days with data: when [df] has
    rows, the day of every row lies between [min_date_allowed] and
    [max_date_allowed], and each bound is the day of a row, so that
    picking it together with that row's area selects the row. *)
Theorem datepicker_bounds (file : list PriceObservation) (d : DataFrame) :
  load_df file = Ok d ->
  List.filter in_zone file <> [] ->
  exists p,
    datepicker d = Ok p /\
    (exists lo hi r_lo r_hi,
       min_date_allowed p = Some lo /\ max_date_allowed p = Some hi /\
       (forall r, In r file -> In (MapCode r) norwegian_zones ->
          lo <= DateTime r / day_ns <= hi) /\
       In (MapCode r_lo) norwegian_zones /\
       In r_lo (selection (date_isoformat lo) (MapCode r_lo) file) /\
       In (MapCode r_hi) norwegian_zones /\
       In r_hi (selection (date_isoformat hi) (MapCode r_hi) file)).
Proof.
  intros Hload Hrows. rewrite load_df_ok in Hload. injection Hload as <-.
  unfold datepicker.
  change (getitem (df_value file) "DateTime")
    with (Ok (map (fun lr : nat * PriceObservation => time_of (snd lr)) (df_rows file))).
  cbn [rbind].
  rewrite <- (map_map snd time_of), df_rows_snd.
  eexists. split; [reflexivity|]. cbn [min_date_allowed max_date_allowed].
  destruct (List.filter in_zone file) as [|x l] eqn:E; [contradiction|].
  - destruct (index_min_times x l) as (t & -> & Hmin & Hlo).
    destruct (index_max_times x l) as (u & -> & Hmax & Hhi).
    apply in_map_iff in Hmin as (r_lo & Ht & Hr_lo).
    apply in_map_iff in Hmax as (r_hi & Hu & Hr_hi).
    assert (Hsel : forall r, In r (x :: l) ->
              In (MapCode r) norwegian_zones /\
              In r (selection (date_isoformat (DateTime r / day_ns)) (MapCode r) file)).
    { intros r Hr. rewrite <- E in Hr. pose proof Hr as Hr2.
      apply filter_In in Hr2 as [_ Hz]. split; [apply in_zone_iff, Hz|].
      unfold selection. apply filter_In. split; [exact Hr|].
      unfold matches, date_isoformat.
      rewrite String.eqb_refl, date_str_of_day, String.eqb_refl. reflexivity. }
    exists (t / day_ns), (u / day_ns), r_lo, r_hi.
    split; [reflexivity|]. split; [reflexivity|]. split.
    + intros r Hr Hz.
      assert (Hin : In r (x :: l))
        by (rewrite <- E; apply filter_In; split; [exact Hr | apply in_zone_iff, Hz]).
      specialize (Hlo r Hin). specialize (Hhi r Hin).
      split; apply Z.div_le_mono; unfold day_ns, hour, minute; lia.
    + rewrite <- Ht, <- Hu.
      destruct (Hsel r_lo Hr_lo) as [Hz1 Hs1]. destruct (Hsel r_hi Hr_hi) as [Hz2 Hs2].
      auto.
Qed.

Lemma filter_filter_implied {R : Type} (p q : R -> bool) (l : list R) :
  (forall x, p x = true -> q x = true) ->
  List.filter p (List.filter q l) = List.filter p l.
Proof.
  intros Himp. induction l as [|x l IH]; simpl; [reflexivity|].
  destruct (q x) eqn:Eq; simpl; [rewrite IH; reflexivity|].
  destruct (p x) eqn:Ep; [|exact IH]. apply Himp in Ep. congruence.
Qed.

Lemma filter_filter_excluded {R : Type} (p q : R -> bool) (l : list R) :
  (forall x, p x = true -> q x = false) ->
  List.filter p (List.filter q l) = [].
Proof.
  intros Hex. induction l as [|x l IH]; simpl; [reflexivity|].
  destruct (q x) eqn:Eq; simpl; [|exact IH].
  destruct (p x) eqn:Ep; [|exact IH]. apply Hex in Ep. congruence.
Qed.

(** X9.  The areas the area picker offers are the zones the module
    loads.  For an offered area the load-time filter drops nothing: the
    rows of the table are those of the lines of the file for that area
    and day, all of them, in some ordering by time.  For any other area
    nothing is selected: the table is empty and the chart raises.  The
    area selected at first is an offered one. *)
Theorem areapicker_areas (file : list PriceObservation) (d : DataFrame)
    (h : gmap nat DataFrame) (data : loc) (day area : string) :
  load_df file = Ok d ->
  h !! data = Some d ->
  (In area (map snd (options areapicker)) ->
   selection day area file = List.filter (matches day area) file /\
   exists tb obs,
     (update_table day area data h).2 = Ok tb /\
     Permutation obs (List.filter (matches day area) file) /\
     StronglySorted by_time obs /\
     thead tb = ["MTU"; "Day-ahead price"] /\
     tbody tb = mtu_rows obs) /\
  (~ In area (map snd (options areapicker)) ->
   (update_table day area data h).2
     = Ok {| thead := ["MTU"; "Day-ahead price"]; tbody := [] |} /\
   (plot_price day area data h).2
     = Raise (ValueError "Neither `start` nor `end` can be NaT")) /\
  In (value areapicker) (map snd (options areapicker)).
Proof.
  intros Hload Hdata. split; [|split].
  - intros Harea.
    assert (Hsel : selection day area file = List.filter (matches day area) file).
    { unfold selection. apply filter_filter_implied. intros r Hm.
      unfold matches in Hm. apply andb_true_iff in Hm as [Hm _].
      apply String.eqb_eq in Hm. apply in_zone_iff. rewrite Hm. exact Harea. }
    split; [exact Hsel|].
    eexists. exists (sorted_selection day area file).
    split; [apply (update_table_rows file d h data day area Hload Hdata)|].
    split; [rewrite <- Hsel; apply sorted_selection_perm|].
    split; [apply sorted_selection_sorted|].
    split; reflexivity.
  - intros Harea.
    assert (Hsel : selection day area file = []).
    { unfold selection. apply filter_filter_excluded. intros r Hm.
      unfold matches in Hm. apply andb_true_iff in Hm as [Hm _].
      apply String.eqb_eq in Hm. apply not_true_iff_false. intros Hz.
      apply in_zone_iff in Hz. apply Harea. rewrite <- Hm. exact Hz. }
    split.
    + rewrite (update_table_rows file d h data day area Hload Hdata).
      unfold sorted_selection. rewrite Hsel. reflexivity.
    + apply (plot_price_empty file d h data day area Hload Hdata Hsel).
  - left. reflexivity.
Qed.

(** ** The further properties at sample inputs *)

Lemma missing_column_raises_witness :
  (lookup_col "MapCode" (columns bare_frame) = None ->
   (plot_price "2023-01-15" "NO3" df ({[ df := bare_frame ]} : gmap nat DataFrame)).2
     = Raise (KeyError "MapCode") /\
   (update_table "2023-01-15" "NO3" df ({[ df := bare_frame ]} : gmap nat DataFrame)).2
     = Raise (KeyError "MapCode")) /\
  (lookup_col "MapCode" (columns bare_frame) <> None ->
   lookup_col "Day" (columns bare_frame) = None ->
   (plot_price "2023-01-15" "NO3" df ({[ df := bare_frame ]} : gmap nat DataFrame)).2
     = Raise (KeyError "Day") /\
   (update_table "2023-01-15" "NO3" df ({[ df := bare_frame ]} : gmap nat DataFrame)).2
     = Raise (KeyError "Day")) /\
  (lookup_col "MapCode" (columns bare_frame) <> None ->
   lookup_col "Day" (columns bare_frame) <> None ->
   lookup_col "DateTime" (columns bare_frame) = None ->
   (plot_price "2023-01-15" "NO3" df ({[ df := bare_frame ]} : gmap nat DataFrame)).2
     = Raise (KeyError "DateTime") /\
   (update_table "2023-01-15" "NO3" df ({[ df := bare_frame ]} : gmap nat DataFrame)).2
     = Raise (KeyError "DateTime")).
Proof.
  apply (missing_column_raises ({[ df := bare_frame ]}) df bare_frame "2023-01-15" "NO3").
  vm_compute. reflexivity.
Defined.

Lemma callbacks_independent_witness :
  (update_plot "2023-01-15" "NO3"
     (update_table_callback "2023-01-16" "NO1" (heap_of hourly_day)).1).2
    = (update_plot "2023-01-15" "NO3" (heap_of hourly_day)).2 /\
  (update_plot "2023-01-15" "NO3"
     (update_plot "2023-01-16" "NO1" (heap_of hourly_day)).1).2
    = (update_plot "2023-01-15" "NO3" (heap_of hourly_day)).2 /\
  (update_table_callback "2023-01-15" "NO3"
     (update_plot "2023-01-16" "NO1" (heap_of hourly_day)).1).2
    = (update_table_callback "2023-01-15" "NO3" (heap_of hourly_day)).2 /\
  (update_table_callback "2023-01-15" "NO3"
     (update_table_callback "2023-01-16" "NO1" (heap_of hourly_day)).1).2
    = (update_table_callback "2023-01-15" "NO3" (heap_of hourly_day)).2.
Proof.
  apply (callbacks_independent (heap_of hourly_day) (df_value hourly_day)
           "2023-01-15" "NO3" "2023-01-16" "NO1").
  solve_loaded.
Defined.


Lemma chart_shows_observations_witness :
  (forall x y, In (x, y) (slots hourly_figure) ->
     exists t, x = Time t /\ jan2023 14 0 0 <= t <= jan2023 14 23 0 + Timedelta 59) /\
  (forall r, In r (selection "2023-01-15" "NO3" hourly_day) ->
     (DateTime r - jan2023 14 0 0) mod quarter = 0 ->
     In (Time (DateTime r), Num (Price r)) (slots hourly_figure)).
Proof.
  apply (fun Hload Hdata =>
           chart_shows_observations hourly_day (df_value hourly_day) (heap_of hourly_day) df
             "2023-01-15" "NO3" Hload Hdata hourly_figure (jan2023 14 0 0) (jan2023 14 23 0));
    [solve_loaded | solve_loaded | solve_loaded | solve_bound | solve_bound].
Defined.

Lemma chart_stays_on_day_witness :
  (plot_price "2023-01-15" "NO3" df (heap_of hourly_day)).2 = Ok hourly_figure /\
  forall x y, In (x, y) (slots hourly_figure) ->
    exists t, x = Time t /\ date_str t = "2023-01-15".
Proof.
  split; [solve_loaded|].
  apply (fun Hload Hdata =>
           chart_stays_on_day hourly_day (df_value hourly_day) (heap_of hourly_day) df
             "2023-01-15" "NO3" Hload Hdata hourly_figure (jan2023 14 0 0) (jan2023 14 23 0));
    [solve_loaded | solve_loaded | solve_loaded | solve_bound | solve_bound
    | vm_compute; discriminate].
Defined.

Lemma chart_ignores_line_order_witness :
  (plot_price "2023-01-15" "NO3" df (heap_of shuffled_lines)).2
  = (plot_price "2023-01-15" "NO3" df (heap_of sorted_lines)).2.
Proof.
  apply (chart_ignores_line_order shuffled_lines sorted_lines
           (df_value shuffled_lines) (df_value sorted_lines));
    [solve_loaded | solve_loaded | solve_loaded | solve_loaded|].
  change (Permutation
            [observation "NO3" (jan2023 14 10 0) (7 # 1);
             observation "NO3" (jan2023 14 8 0) (5 # 1)]
            [observation "NO3" (jan2023 14 8 0) (5 # 1);
             observation "NO3" (jan2023 14 10 0) (7 # 1)]).
  apply perm_swap.
Defined.

Lemma datepicker_bounds_witness :
  exists p,
    datepicker (df_value hourly_day) = Ok p /\
    (exists lo hi r_lo r_hi,
       min_date_allowed p = Some lo /\ max_date_allowed p = Some hi /\
       (forall r, In r hourly_day -> In (MapCode r) norwegian_zones ->
          lo <= DateTime r / day_ns <= hi) /\
       In (MapCode r_lo) norwegian_zones /\
       In r_lo (selection (date_isoformat lo) (MapCode r_lo) hourly_day) /\
       In (MapCode r_hi) norwegian_zones /\
       In r_hi (selection (date_isoformat hi) (MapCode r_hi) hourly_day)).
Proof.
  apply (datepicker_bounds hourly_day (df_value hourly_day));
    [solve_loaded | vm_compute; discriminate].
Defined.

Lemma areapicker_areas_witness :
  (In "NO3" (map snd (options areapicker)) ->
   selection "2023-01-15" "NO3" shuffled_lines
     = List.filter (matches "2023-01-15" "NO3") shuffled_lines /\
   exists tb obs,
     (update_table "2023-01-15" "NO3" df (heap_of shuffled_lines)).2 = Ok tb /\
     Permutation obs (List.filter (matches "2023-01-15" "NO3") shuffled_lines) /\
     StronglySorted by_time obs /\
     thead tb = ["MTU"; "Day-ahead price"] /\
     tbody tb = mtu_rows obs) /\
  (~ In "NO3" (map snd (options areapicker)) ->
   (update_table "2023-01-15" "NO3" df (heap_of shuffled_lines)).2
     = Ok {| thead := ["MTU"; "Day-ahead price"]; tbody := [] |} /\
   (plot_price "2023-01-15" "NO3" df (heap_of shuffled_lines)).2
     = Raise (ValueError "Neither `start` nor `end` can be NaT")) /\
  In (value areapicker) (map snd (options areapicker)).
Proof.
  apply (areapicker_areas shuffled_lines (df_value shuffled_lines) (heap_of shuffled_lines)
           df "2023-01-15" "NO3"); solve_loaded.
Defined.

Lemma load_df_keeps_zone_lines_witness :
  exists kept,
    (forall i r, In (i, r) kept <->
       nth_error shuffled_lines i = Some r /\ In (MapCode r) norwegian_zones) /\
    StronglySorted (fun x y : nat * PriceObservation => (fst x < fst y)%nat) kept /\
    index (df_value shuffled_lines) = map (fun lr => Int (Z.of_nat (fst lr))) kept /\
    map fst (columns (df_value shuffled_lines))
      = [ "DateTime"; "ResolutionCode"; "AreaCode"; "AreaTypeCode"; "AreaName";
          "MapCode"; "Price"; "Currency"; "UpdateTime"; "Day" ] /\
    getitem (df_value shuffled_lines) "DateTime"
      = Ok (map (fun lr => Time (DateTime (snd lr))) kept) /\
    getitem (df_value shuffled_lines) "MapCode"
      = Ok (map (fun lr => Str (MapCode (snd lr))) kept) /\
    getitem (df_value shuffled_lines) "Price"
      = Ok (map (fun lr => Num (Price (snd lr))) kept) /\
    getitem (df_value shuffled_lines) "Day"
      = Ok (map (fun lr => Str (date_str (DateTime (snd lr)))) kept) /\
    (forall lr, In lr kept ->
       exists y m dd,
         1677 <= y <= 2262 /\ 1 <= m <= 12 /\ 1 <= dd <= 31 /\
         date_str (DateTime (snd lr))
         = pad4 y +:+ "-" +:+ pad2 m +:+ "-" +:+ pad2 dd).
Proof.
  apply (load_df_keeps_zone_lines shuffled_lines (df_value shuffled_lines));
    [solve_loaded|].
  repeat constructor; vm_compute; discriminate.
Defined.

Example datepicker_hourly_day :
  datepicker (df_value hourly_day)
  = Ok {| min_date_allowed := Some 19372; max_date_allowed := Some 19373;
          date := date_2023_01_01 |}
  /\ date_isoformat 19372 = "2023-01-15" /\ date_isoformat 19373 = "2023-01-16"
  /\ date_isoformat date_2023_01_01 = "2023-01-01".
Proof. repeat split; vm_compute; reflexivity. Qed.

(** Without [Price] there is nothing to rename, and the table path fails
    where it picks its two columns. *)
Example table_without_price :
  (update_table "2023-01-15" "NO3" df ({[ df := frame_without_price ]} : gmap nat DataFrame)).2
  = Raise (KeyError "['Day-ahead price'] not in index").
Proof. vm_compute. reflexivity. Qed.

(** Out of time order in the file, in time order in the table. *)
Example shuffled_lines_table :
  (update_table_callback "2023-01-15" "NO3" (heap_of shuffled_lines)).2
  = Ok {| thead := ["MTU"; "Day-ahead price"];
          tbody := [ [Str "08:00 - 10:00"; Num (5 # 1)];
                     [Str "10:00 - 00:00"; Num (7 # 1)] ] |}.
Proof. vm_compute. reflexivity. Qed.

(** ** The table and the order of the lines *)

(** X10.  With no two matching observations at one instant, the table
    too depends on the matching observations only: two files whose
    selections hold the same observations give the same table. *)
Theorem table_ignores_line_order (file file' : list PriceObservation) (d d' : DataFrame)
    (h h' : gmap nat DataFrame) (data data' : loc) (day area : string) :
  load_df file = Ok d -> h !! data = Some d ->
  load_df file' = Ok d' -> h' !! data' = Some d' ->
  Permutation (selection day area file) (selection day area file') ->
  List.NoDup (map DateTime (selection day area file)) ->
  (update_table day area data h).2 = (update_table day area data' h').2.
Proof.
  intros Hload Hdata Hload' Hdata' Hp Hnd.
  rewrite (update_table_rows file d h data day area Hload Hdata).
  rewrite (update_table_rows file' d' h' data' day area Hload' Hdata').
  rewrite (sorted_perm_eq (sorted_selection day area file) (sorted_selection day area file')).
  - reflexivity.
  - apply sorted_selection_sorted.
  - apply sorted_selection_sorted.
  - rewrite (sorted_selection_perm day area file), Hp.
    symmetry. apply sorted_selection_perm.
  - eapply Permutation_NoDup; [|exact Hnd].
    apply Permutation_map. symmetry. apply sorted_selection_perm.
Qed.

Lemma table_ignores_line_order_witness :
  (update_table "2023-01-15" "NO3" df (heap_of shuffled_lines)).2
  = (update_table "2023-01-15" "NO3" df (heap_of sorted_lines)).2.
Proof.
  apply (table_ignores_line_order shuffled_lines sorted_lines
           (df_value shuffled_lines) (df_value sorted_lines));
    [solve_loaded | solve_loaded | solve_loaded | solve_loaded | | solve_distinct].
  change (Permutation
            [observation "NO3" (jan2023 14 10 0) (7 # 1);
             observation "NO3" (jan2023 14 8 0) (5 # 1)]
            [observation "NO3" (jan2023 14 8 0) (5 # 1);
             observation "NO3" (jan2023 14 10 0) (7 # 1)]).
  apply perm_swap.
Defined.

(** ** Hourly observations *)


Section Hourly.
Variables (file : list PriceObservation) (d : DataFrame).
Variables (h : gmap nat DataFrame) (data : loc) (day area : string).
Variables (t0 : Z) (n : nat).
Hypothesis Hload : load_df file = Ok d.
Hypothesis Hdata : h !! data = Some d.
Hypothesis Htimes :
  map DateTime (selection day area file)
  = map (fun k => t0 + Z.of_nat k * hour) (seq 0 (S n)).



End Hourly.

